(** * The contact-form controller of the GadgetCloud site (src/js/main.js)

    A shallow embedding of the rate limiter ([checkRateLimit],
    [recordSubmission]), of the attribution helper ([getSource]) and of the
    submit handler of [contactForm], followed by the properties the
    specification states about them.

    Modelling conventions.
    - Time values (the clock, the timestamps of the ledger) are integers in
      the range where JavaScript numbers and [Date] are exact; they are
      values of [Z].
    - [localStorage] is a finite map from keys to stored texts.  A stored
      text is represented by what [JSON.parse] makes of it (type [Text]);
      [JSON.stringify] of an array of timestamps is the text that parses
      back to that array.  Arrays with elements other than integers are
      outside the model.
    - The elements the handler looks up (the four fields of the form, the
      submit button, the status line) exist, as the DOM contract of the
      specification has it; the honeypot input may be missing, which the
      handler checks itself.  The [error] and [message] fields of an error
      body are strings when they are present.
    - Exceptions are explicit: a computation of the monad [M] either
      returns a value or throws, and keeps the changes it made to the
      browser state before throwing.
    - The handler is asynchronous.  The reply of the network, and the
      clock reading when it arrives, are an input ([Net]) of the model. *)

From Stdlib Require Import ZArith Lia.
From stdpp Require Import base option list gmap strings pretty.

Local Open Scope string_scope.
Local Open Scope Z_scope.

(** ** Platform functions used by the script *)

Module Js.

(** [String.prototype.includes]: [sub] occurs somewhere in [s]. *)
Fixpoint includes (s sub : string) : bool :=
  String.prefix sub s ||
  match s with
  | EmptyString => false
  | String _ rest => includes rest sub
  end.

(** [String.prototype.trim], on the white space of ASCII. *)
Fixpoint trimStart (s : string) : string :=
  match s with
  | EmptyString => EmptyString
  | String a rest => if Ascii.is_space a then trimStart rest else s
  end.

Definition trim (s : string) : string :=
  String.rev (trimStart (String.rev (trimStart s))).

(** Truthiness of a string: every string but the empty one. *)
Definition truthy (s : string) : bool := negb (String.eqb s "").

(** Truthiness of a value that is a string, [null] or [undefined]. *)
Definition truthy_opt (o : option string) : bool :=
  match o with
  | Some s => truthy s
  | None => false
  end.

(** [Math.min(...xs)]; [None] stands for [Infinity], the result on an
    empty argument list. *)
Definition Math_min (xs : list Z) : option Z :=
  match xs with
  | [] => None
  | x :: rest => Some (fold_left Z.min rest x)
  end.

(** [Math.ceil(a / b)] for integers [a] and positive [b]. *)
Definition Math_ceil_div (a b : Z) : Z := - ((- a) / b).

(** A number inside a template literal; [None] is [NaN]. *)
Definition show_number (n : option Z) : string :=
  match n with
  | Some z => pretty z
  | None => "NaN"
  end.

End Js.

(** ** Browser state *)

(** A text held by [localStorage], seen through [JSON.parse]. *)
Inductive Text :=
| Empty                      (* the empty string *)
| Garbled                    (* not JSON: [JSON.parse] throws *)
| Scalar                     (* JSON that is not an array: null, a number, an object, ... *)
| Timestamps (l : list Z).   (* the JSON text of an array of timestamps *)

(** [blocked]: every access to the storage throws (storage disabled).
    [full]: [setItem] throws (quota exceeded). *)
Record Storage := {
  items : gmap string Text;
  blocked : bool;
  full : bool
}.

(** The named controls of [contactForm]. [honeypot] is the input named
    [_gotcha], [None] when the page has no such element. *)
Record Form := {
  firstName : string;
  lastName : string;
  email : string;
  message : string;
  honeypot : option string
}.

(** [submitBtn]: its [disabled] flag and its [textContent]. *)
Record Button := {
  disabled : bool;
  label : string
}.

(** [formStatus]: [textContent], [className] and [style.display]. *)
Record Status := {
  textContent : string;
  className : string;
  display : string
}.

(** The attribution bundle and the submission record sent to the API. *)
Record Tags := {
  tag_source : string;
  tag_referrer : string;
  tag_pageUrl : string;
  tag_userAgent : string;
  tag_isTest : bool;
  tag_submittedAt : Z
}.

Record FormData := {
  fd_formType : string;
  fd_firstName : string;
  fd_lastName : string;
  fd_email : string;
  fd_message : string;
  fd_tags : Tags
}.

Record Request := {
  req_url : string;
  req_method : string;
  req_contentType : string;
  req_body : FormData
}.

(** What the handler does to the outside: it cancels the browser's own
    submission of the form, and it calls [fetch]. *)
Inductive Event :=
| PreventDefault
| Fetch (r : Request).

Record World := {
  localStorage : Storage;
  clock : Z;
  form : Form;
  submitBtn : Button;
  formStatus : Status;
  log : list Event
}.

(** The page the script runs on: the entries of
    [new URLSearchParams(window.location.search)] in order, the referrer,
    the host name of [new URL(document.referrer)] ([None] when the
    constructor throws), and the location. *)
Record Page := {
  search : list (string * string);
  referrer : string;
  referrer_host : option string;
  hostname : string;
  href : string;
  userAgent : string
}.

(** A parsed response body. [JsonValue e m] is a JSON value other than
    null, with its [error] and [message] properties when it has them
    (an object without them, a number, a string and an array all are
    [JsonValue None None]). *)
Inductive Json :=
| JsonNull
| JsonValue (error msg : option string).

(** The body of a response: [response.json()] rejects on [NotJson]. *)
Inductive Body :=
| NotJson
| IsJson (v : Json).

Inductive Reply :=
| Rejected
| Resolved (status : Z) (body : Body).

(** The network as the handler meets it: how the promise of [fetch]
    settles, and the clock reading at that moment. *)
Record Net := {
  reply : Reply;
  arrival : Z
}.

(** ** Computations that may throw *)

Inductive Exn :=
| SecurityError
| QuotaExceededError
| SyntaxError
| TypeError
| NetworkError.

Inductive Outcome (A : Type) :=
| Return (a : A)
| Throw (e : Exn).
Arguments Return {A} a.
Arguments Throw {A} e.

Definition M (A : Type) : Type := World → Outcome A * World.

Global Instance M_ret : MRet M := λ A a w, (Return a, w).

Global Instance M_bind : MBind M := λ A B f c w,
  match c w with
  | (Return a, w') => f a w'
  | (Throw e, w') => (Throw e, w')
  end.

Definition throw {A} (e : Exn) : M A := λ w, (Throw e, w).

(** [try { c } catch (e) { h e }] *)
Definition try_catch {A} (c : M A) (h : Exn → M A) : M A := λ w,
  match c w with
  | (Return a, w') => (Return a, w')
  | (Throw e, w') => h e w'
  end.

(** [try { c } finally { f }] *)
Definition try_finally {A} (c : M A) (f : M unit) : M A := λ w,
  match c w with
  | (r, w') =>
      match f w' with
      | (Return _, w'') => (r, w'')
      | (Throw e, w'') => (Throw e, w'')
      end
  end.

Definition get_world : M World := λ w, (Return w, w).
Definition modify (f : World → World) : M unit := λ w, (Return tt, f w).

Definition run {A} (c : M A) (w : World) : Outcome A := fst (c w).
Definition exec {A} (c : M A) (w : World) : World := snd (c w).

(** ** Browser operations *)

Definition set_localStorage (s : Storage) (w : World) : World :=
  {| localStorage := s; clock := clock w; form := form w;
     submitBtn := submitBtn w; formStatus := formStatus w; log := log w |}.

Definition set_clock (t : Z) (w : World) : World :=
  {| localStorage := localStorage w; clock := t; form := form w;
     submitBtn := submitBtn w; formStatus := formStatus w; log := log w |}.

Definition set_form (f : Form) (w : World) : World :=
  {| localStorage := localStorage w; clock := clock w; form := f;
     submitBtn := submitBtn w; formStatus := formStatus w; log := log w |}.

Definition set_submitBtn (b : Button) (w : World) : World :=
  {| localStorage := localStorage w; clock := clock w; form := form w;
     submitBtn := b; formStatus := formStatus w; log := log w |}.

Definition set_formStatus (s : Status) (w : World) : World :=
  {| localStorage := localStorage w; clock := clock w; form := form w;
     submitBtn := submitBtn w; formStatus := s; log := log w |}.

Definition emit (e : Event) (w : World) : World :=
  {| localStorage := localStorage w; clock := clock w; form := form w;
     submitBtn := submitBtn w; formStatus := formStatus w;
     log := log w ++ [e] |}.

(** [Date.now()] *)
Definition Date_now : M Z := λ w, (Return (clock w), w).

(** [localStorage.getItem(key)]; [None] is [null]. *)
Definition localStorage_getItem (key : string) : M (option Text) := λ w,
  if blocked (localStorage w) then (Throw SecurityError, w)
  else (Return (items (localStorage w) !! key), w).

(** [localStorage.setItem(key, text)] *)
Definition localStorage_setItem (key : string) (text : Text) : M unit := λ w,
  let s := localStorage w in
  if blocked s then (Throw SecurityError, w)
  else if full s then (Throw QuotaExceededError, w)
  else (Return tt,
        set_localStorage
          {| items := <[key := text]> (items s);
             blocked := blocked s; full := full s |} w).

(** The values [JSON.parse] yields, as far as the script tells them apart. *)
Inductive JsValue :=
| JArray (l : list Z)
| JOther.

Definition JSON_parse (t : Text) : M JsValue :=
  match t with
  | Empty => throw SyntaxError
  | Garbled => throw SyntaxError
  | Scalar => mret JOther
  | Timestamps l => mret (JArray l)
  end.

Definition JSON_stringify (l : list Z) : Text := Timestamps l.

(** [stored ? ... : ...]: [null] and the empty string are falsy. *)
Definition truthy_text (stored : option Text) : bool :=
  match stored with
  | None => false
  | Some Empty => false
  | Some _ => true
  end.

(** [v.filter(p)]: a [TypeError] when [v] is not an array. *)
Definition Array_filter (p : Z → bool) (v : JsValue) : M (list Z) :=
  match v with
  | JArray l => mret (List.filter p l)
  | JOther => throw TypeError
  end.

(** ** The rate limiter *)

Definition RATE_LIMIT_KEY : string := "gc_form_submissions".
Definition RATE_LIMIT_MAX : nat := 10.
Definition RATE_LIMIT_WINDOW_MS : Z := 60 * 60 * 1000.

Inductive RateCheck :=
| Allowed (submissions : list Z)
| Denied (message : string).

(** [ts => now - ts < RATE_LIMIT_WINDOW_MS] *)
Definition fresh (now ts : Z) : bool :=
  bool_decide (now - ts < RATE_LIMIT_WINDOW_MS).

Definition denial_message (minutes : option Z) : string :=
  "Too many submissions. Please try again in " +:+ Js.show_number minutes
    +:+ " minute" +:+ (if bool_decide (minutes = Some 1) then "" else "s")
    +:+ ".".

Definition checkRateLimit : M RateCheck :=
  try_catch
    (now ← Date_now;
     stored ← localStorage_getItem RATE_LIMIT_KEY;
     parsed ← (if truthy_text stored
               then JSON_parse (default Empty stored)
               else mret (JArray []));
     submissions ← Array_filter (fresh now) parsed;
     if bool_decide (RATE_LIMIT_MAX ≤ length submissions)%nat then
       let oldestSubmission := Js.Math_min submissions in
       let resetTime := (λ o, o + RATE_LIMIT_WINDOW_MS) <$> oldestSubmission in
       let minutes := (λ r, Js.Math_ceil_div (r - now) 60000) <$> resetTime in
       mret (Denied (denial_message minutes))
     else
       mret (Allowed submissions))
    (λ _, mret (Allowed [])).

Definition recordSubmission : M unit :=
  try_catch
    (stored ← localStorage_getItem RATE_LIMIT_KEY;
     parsed ← (if truthy_text stored
               then JSON_parse (default Empty stored)
               else mret (JArray []));
     now ← Date_now;
     submissions ← Array_filter (fresh now) parsed;
     let submissions := (submissions ++ [now])%list in
     localStorage_setItem RATE_LIMIT_KEY (JSON_stringify submissions))
    (λ _, mret tt).

(** ** Attribution *)

(** [params.get(name)]: the value of the first entry called [name]. *)
Fixpoint params_get (params : list (string * string)) (name : string)
  : option string :=
  match params with
  | [] => None
  | (k, v) :: rest => if String.eqb k name then Some v else params_get rest name
  end.

Definition getSource (page : Page) : string :=
  let params := search page in
  if Js.truthy_opt (params_get params "utm_source") then
    default "" (params_get params "utm_source")
  else if Js.truthy_opt (params_get params "ref") then
    default "" (params_get params "ref")
  else if Js.truthy_opt (params_get params "source") then
    default "" (params_get params "source")
  else if Js.truthy (referrer page) then
    match referrer_host page with
    | Some referrerHost =>
        if String.eqb referrerHost (hostname page) then "internal"
        else if Js.includes referrerHost "google" then "google"
        else if Js.includes referrerHost "facebook"
                || Js.includes referrerHost "fb.com" then "facebook"
        else if Js.includes referrerHost "twitter"
                || Js.includes referrerHost "t.co" then "twitter"
        else if Js.includes referrerHost "linkedin" then "linkedin"
        else if Js.includes referrerHost "instagram" then "instagram"
        else referrerHost
    | None => "unknown"
    end
  else "direct".

(** ** The submit handler *)

Record Response := {
  status : Z;
  body : Body
}.

(** [response.ok]: the status is in the range 200-299. *)
Definition Response_ok (r : Response) : bool :=
  bool_decide (200 ≤ status r ≤ 299).

(** [await fetch(url, init)]: the request leaves, and the handler resumes
    when the promise settles; a rejected promise throws at the [await]. *)
Definition fetch (net : Net) (r : Request) : M Response := λ w,
  let w' := set_clock (arrival net) (emit (Fetch r) w) in
  match reply net with
  | Rejected => (Throw NetworkError, w')
  | Resolved st b => (Return {| status := st; body := b |}, w')
  end.

(** [await response.json()] *)
Definition Response_json (r : Response) : M Json :=
  match body r with
  | NotJson => throw SyntaxError
  | IsJson v => mret v
  end.

(** [v.error] and [v.message]: a [TypeError] on null. *)
Definition prop_error (v : Json) : M (option string) :=
  match v with
  | JsonNull => throw TypeError
  | JsonValue e _ => mret e
  end.

Definition prop_message (v : Json) : M (option string) :=
  match v with
  | JsonNull => throw TypeError
  | JsonValue _ m => mret m
  end.

(** Modelled from the spec: the markup of the contact page is not among
    the sources, so the default values of the controls, which
    [contactForm.reset()] restores, are taken from the spec: the fields
    are empty after a reset. *)
Definition default_value : string := "".

(** Modelled from the spec: the markup of the contact page is not among
    the sources; the label the submit button has before any submission
    is the one the spec and the tests see after one. *)
Definition original_label : string := "Send Message".

(** [contactForm.reset()] *)
Definition Form_reset (f : Form) : Form :=
  {| firstName := default_value; lastName := default_value;
     email := default_value; message := default_value;
     honeypot := (λ _, default_value) <$> honeypot f |}.

Definition preventDefault : M unit := modify (emit PreventDefault).

Definition set_status_text (t : string) : M unit :=
  modify (λ w, set_formStatus
    {| textContent := t; className := className (formStatus w);
       display := display (formStatus w) |} w).

Definition set_status_class (c : string) : M unit :=
  modify (λ w, set_formStatus
    {| textContent := textContent (formStatus w); className := c;
       display := display (formStatus w) |} w).

Definition set_status_display (d : string) : M unit :=
  modify (λ w, set_formStatus
    {| textContent := textContent (formStatus w);
       className := className (formStatus w); display := d |} w).

Definition set_btn_disabled (b : bool) : M unit :=
  modify (λ w, set_submitBtn
    {| disabled := b; label := label (submitBtn w) |} w).

Definition set_btn_text (t : string) : M unit :=
  modify (λ w, set_submitBtn
    {| disabled := disabled (submitBtn w); label := t |} w).

Definition reset_form : M unit :=
  modify (λ w, set_form (Form_reset (form w)) w).

(** [honeypot && honeypot.value] *)
Definition honeypot_filled (f : Form) : bool := Js.truthy_opt (honeypot f).

Definition endpoint : string := "https://rest.gadgetcloud.io/forms".

Definition collect (page : Page) (w : World) : FormData :=
  {| fd_formType := "contacts";
     fd_firstName := Js.trim (firstName (form w));
     fd_lastName := Js.trim (lastName (form w));
     fd_email := Js.trim (email (form w));
     fd_message := Js.trim (message (form w));
     fd_tags :=
       {| tag_source := getSource page;
          tag_referrer :=
            if Js.truthy (referrer page) then referrer page else "direct";
          tag_pageUrl := href page;
          tag_userAgent := userAgent page;
          tag_isTest := false;
          tag_submittedAt := clock w |} |}.

Definition submit (page : Page) (net : Net) : M unit :=
  preventDefault;;
  w ← get_world;
  if honeypot_filled (form w) then mret tt
  else
    rateCheck ← checkRateLimit;
    match rateCheck with
    | Denied message =>
        set_status_text message;;
        set_status_class "form-status error";;
        set_status_display "block"
    | Allowed _ =>
        set_btn_disabled true;;
        set_btn_text "Sending...";;
        set_status_text "";;
        set_status_class "form-status";;
        w ← get_world;
        let formData := collect page w in
        try_finally
          (try_catch
             (response ← fetch net
                {| req_url := endpoint; req_method := "POST";
                   req_contentType := "application/json";
                   req_body := formData |};
              if Response_ok response then
                recordSubmission;;
                set_status_text
                  "Thank you for your message! We will get back to you soon.";;
                set_status_class "form-status success";;
                set_status_display "block";;
                reset_form
              else
                error ← try_catch (Response_json response)
                          (λ _, mret (JsonValue None None));
                e ← prop_error error;
                text ← (if Js.truthy_opt e then mret (default "" e)
                        else
                          m ← prop_message error;
                          if Js.truthy_opt m then mret (default "" m)
                          else mret "Something went wrong. Please try again.");
                set_status_text text;;
                set_status_class "form-status error";;
                set_status_display "block")
             (λ _,
                set_status_text
                  "Unable to send message. Please check your connection and try again.";;
                set_status_class "form-status error";;
                set_status_display "block"))
          (set_btn_disabled false;;
           set_btn_text "Send Message")
    end.

(** ** The specification's vocabulary *)

(** The ledger as the specification reads it: the stored sequence of
    timestamps, and the empty sequence when the key is absent, the text
    is malformed, or the storage cannot be read. *)
Definition spec_ledger (w : World) : list Z :=
  if blocked (localStorage w) then []
  else match items (localStorage w) !! RATE_LIMIT_KEY with
       | Some (Timestamps l) => l
       | _ => []
       end.

(** Pruning at time [now]: an entry stays when its age is less than one
    hour, 3 600 000 ms. *)
Definition spec_prune (now : Z) (l : list Z) : list Z :=
  List.filter (λ ts, bool_decide (now - ts < 3600000)) l.

Definition spec_pruned (w : World) : list Z :=
  spec_prune (clock w) (spec_ledger w).

(** The result of the rate check as a function of the state. *)
Definition spec_rateCheck (w : World) : RateCheck :=
  let remaining := spec_pruned w in
  if bool_decide (10 ≤ length remaining)%nat then
    Denied (denial_message
      ((λ oldest, Js.Math_ceil_div (oldest + 3600000 - clock w) 60000)
         <$> Js.Math_min remaining))
  else Allowed remaining.

Definition is_allowed (r : RateCheck) : bool :=
  match r with
  | Allowed _ => true
  | Denied _ => false
  end.

(** A submission passes the guards of the handler: the honeypot is not
    filled in and the rate check allows. *)
Definition passes_guards (w : World) : bool :=
  negb (honeypot_filled (form w)) &&
  match run checkRateLimit w with
  | Return r => is_allowed r
  | Throw _ => false
  end.

(** The network requests among the events of a log. *)
Definition requests (l : list Event) : list Request :=
  omap (λ e, match e with Fetch r => Some r | PreventDefault => None end) l.

(** What the user can see of the state: the form, the button, the status
    line and the traffic; not the storage, not the clock. *)
Definition visible (w : World) : Form * Button * Status * list Event :=
  (form w, submitBtn w, formStatus w, log w).

(** The ledger can be read, parsed and written. *)
Definition ledger_usable (s : Storage) : bool :=
  negb (blocked s) && negb (full s) &&
  match items s !! RATE_LIMIT_KEY with
  | Some Garbled | Some Scalar => false
  | _ => true
  end.

Definition with_full (b : bool) (w : World) : World :=
  set_localStorage
    {| items := items (localStorage w); blocked := blocked (localStorage w);
       full := b |} w.

Definition error_status (text : string) : Status :=
  {| textContent := text; className := "form-status error";
     display := "block" |}.

Definition success_status : Status :=
  {| textContent := "Thank you for your message! We will get back to you soon.";
     className := "form-status success"; display := "block" |}.

Definition is_2xx (r : Reply) : bool :=
  match r with
  | Resolved st _ => bool_decide (200 ≤ st ≤ 299)
  | Rejected => false
  end.

(** *** getSource, table-driven *)

(** The fixed ordered list of known platforms: the substrings that
    reveal a platform, and its name. *)
Definition spec_platforms : list (list string * string) :=
  [ (["google"], "google");
    (["facebook"; "fb.com"], "facebook");
    (["twitter"; "t.co"], "twitter");
    (["linkedin"], "linkedin");
    (["instagram"], "instagram") ].

Definition spec_classify (host : string) : string :=
  match List.find (λ p, existsb (Js.includes host) (fst p)) spec_platforms with
  | Some p => snd p
  | None => host
  end.

Definition spec_referrer_source (page : Page) : string :=
  if bool_decide (referrer page = "") then "direct"
  else match referrer_host page with
       | None => "unknown"
       | Some host =>
           if bool_decide (host = hostname page) then "internal"
           else spec_classify host
       end.

(** The precedence among the query parameters, for a given reading
    [present] of "the parameter is present". *)
Definition spec_getSource (present : option string → bool) (page : Page)
  : string :=
  match List.find present
          (params_get (search page) <$> ["utm_source"; "ref"; "source"]) with
  | Some value => default "" value
  | None => spec_referrer_source page
  end.

(** Present, as the specification words it: the query has the parameter. *)
Definition present_as_stated (o : option string) : bool :=
  bool_decide (is_Some o).

(** Present, as the script tests it: the parameter has a value that is
    not empty. *)
Definition present_nonempty (o : option string) : bool :=
  match o with
  | Some v => bool_decide (v ≠ "")
  | None => false
  end.

(** *** The text of an HTTP error *)

Definition fallback_text : string := "Something went wrong. Please try again.".

(** As the specification words it: the [error] field if present, else
    the [message] field if present, else the fallback. *)
Definition spec_error_text_as_stated (b : Body) : string :=
  match b with
  | IsJson (JsonValue (Some e) _) => e
  | IsJson (JsonValue None (Some m)) => m
  | _ => fallback_text
  end.

(** With "present" read as "present and not empty". *)
Definition spec_error_text (b : Body) : string :=
  match b with
  | IsJson (JsonValue e m) =>
      default fallback_text
        (List.find (λ s, bool_decide (s ≠ "")) (omap id [e; m]))
  | _ => fallback_text
  end.

(** The state [recordSubmission] leaves: the ledger pruned at the clock's
    time with that time appended when the ledger is usable, and the
    state as it was otherwise. *)
Definition spec_recorded (w : World) : World :=
  let s := localStorage w in
  if ledger_usable s then
    set_localStorage
      {| items := <[RATE_LIMIT_KEY :=
                      Timestamps (spec_pruned w ++ [clock w])]> (items s);
         blocked := blocked s; full := full s |} w
  else w.

(** *** The handler, state to state *)

Definition connectivity_text : string :=
  "Unable to send message. Please check your connection and try again.".

(** The state in which the request leaves: the browser's own submission
    cancelled, the button disabled and relabelled, the status line
    cleared. *)
Definition sending (w : World) : World :=
  set_formStatus
    {| textContent := ""; className := "form-status";
       display := display (formStatus w) |}
    (set_submitBtn {| disabled := true; label := "Sending..." |}
       (emit PreventDefault w)).

Definition the_request (page : Page) (w : World) : Request :=
  {| req_url := endpoint; req_method := "POST";
     req_contentType := "application/json";
     req_body := collect page (sending w) |}.

(** The state in which the handler resumes after [await fetch]. *)
Definition in_flight (page : Page) (net : Net) (w : World) : World :=
  set_clock (arrival net) (emit (Fetch (the_request page w)) (sending w)).

(** The status line for each way the request can end.  A JSON body that
    is [null] makes the handler throw while it reads the [error] field,
    and the [catch] of the network failure then writes its own text. *)
Definition spec_final_status (r : Reply) : Status :=
  match r with
  | Rejected => error_status connectivity_text
  | Resolved st b =>
      if bool_decide (200 ≤ st ≤ 299) then success_status
      else match b with
           | IsJson JsonNull => error_status connectivity_text
           | _ => error_status (spec_error_text b)
           end
  end.

Definition spec_submit (page : Page) (net : Net) (w : World) : World :=
  if honeypot_filled (form w) then emit PreventDefault w
  else match spec_rateCheck w with
       | Denied msg =>
           set_formStatus (error_status msg) (emit PreventDefault w)
       | Allowed _ =>
           let arrived := in_flight page net w in
           let settled :=
             if is_2xx (reply net)
             then set_form (Form_reset (form w)) (spec_recorded arrived)
             else arrived in
           set_submitBtn {| disabled := false; label := "Send Message" |}
             (set_formStatus (spec_final_status (reply net)) settled)
       end.

(** *** The claims that are compared with the code as they are worded *)

(** A 2xx reply adds the arrival time to the pruned ledger, shows the
    success message and empties the fields. *)
Definition spec_success_as_stated (page : Page) (net : Net) (w : World)
  : Prop :=
  passes_guards w = true → is_2xx (reply net) = true →
  let w' := exec (submit page net) w in
  spec_ledger w' = (spec_prune (arrival net) (spec_ledger w) ++ [arrival net])%list
  ∧ formStatus w' = success_status
  ∧ firstName (form w') = "" ∧ lastName (form w') = ""
  ∧ email (form w') = "" ∧ message (form w') = "".

(** A reply outside 2xx shows the [error] field if present, else the
    [message] field if present, else the fallback, and keeps the fields. *)
Definition spec_http_error_as_stated (page : Page) (net : Net) (w : World)
  : Prop :=
  passes_guards w = true →
  ∀ st b, reply net = Resolved st b → ¬ (200 ≤ st ≤ 299) →
  let w' := exec (submit page net) w in
  formStatus w' = error_status (spec_error_text_as_stated b)
  ∧ form w' = form w.

(** ** Sample inputs *)

Definition demo_form : Form :=
  {| firstName := "Test"; lastName := "User"; email := "test@example.com";
     message := "Test message for error handling."; honeypot := Some "" |}.

Definition demo_world (s : Storage) (now : Z) (f : Form) : World :=
  {| localStorage := s; clock := now; form := f;
     submitBtn := {| disabled := false; label := original_label |};
     formStatus := {| textContent := ""; className := "form-status";
                      display := "none" |};
     log := [] |}.

Definition demo_storage (stored : option Text) : Storage :=
  {| items := from_option (λ t, {[ RATE_LIMIT_KEY := t ]}) ∅ stored;
     blocked := false; full := false |}.

Definition demo_page (params : list (string * string)) (ref : string)
    (host : option string) : Page :=
  {| search := params; referrer := ref; referrer_host := host;
     hostname := "www.gadgetcloud.io";
     href := "https://www.gadgetcloud.io/contact_us.html";
     userAgent := "Mozilla/5.0" |}.

(** A storage that holds one recent submission and takes no more writes. *)
Definition demo_full_storage : Storage :=
  {| items := {[ RATE_LIMIT_KEY := Timestamps [1000000] ]};
     blocked := false; full := true |}.

Definition demo_net (st : Z) (b : Body) : Net :=
  {| reply := Resolved st b; arrival := 1600500 |}.

(** A query whose [utm_source] is empty, with a [ref]. *)
Definition demo_empty_utm_page : Page :=
  demo_page [("utm_source", ""); ("ref", "aff")] "" None.

(** A reply 400 whose body has an empty [error] and a [message]. *)
Definition demo_empty_error_net : Net :=
  demo_net 400 (IsJson (JsonValue (Some "") (Some "Email is invalid"))).

(** Ten submissions, one a minute, the oldest at 1 000 000 ms. *)
Definition demo_ten : list Z :=
  (λ i, 1000000 + 60000 * Z.of_nat i) <$> seq 0 10.

(** The state of a visitor who made them, at 1 600 000 ms. *)
Definition demo_denied_world : World :=
  demo_world (demo_storage (Some (Timestamps demo_ten))) 1600000 demo_form.

(** The state of a first-time visitor. *)
Definition demo_fresh_world : World :=
  demo_world (demo_storage None) 1600000 demo_form.

(** The state of a visitor whose storage takes no more writes. *)
Definition demo_full_world : World :=
  demo_world demo_full_storage 1600000 demo_form.

(** The state of a bot that filled in the honeypot. *)
Definition demo_bot_world : World :=
  demo_world (demo_storage None) 1600000
    {| firstName := "Buy"; lastName := "Now"; email := "spam@example.com";
       message := "Cheap watches"; honeypot := Some "http://spam.example" |}.

(** ** Visits: one submission after another *)

(** One submission of a visit: the clock reading when the submit event
    fires, what the form holds at that moment, and the network the
    request meets. *)
Record Attempt := {
  started : Z;
  filled : Form;
  met : Net
}.

(** The state in which the handler starts on an attempt. *)
Definition begin (a : Attempt) (w : World) : World :=
  set_form (filled a) (set_clock (started a) w).

Fixpoint session (page : Page) (attempts : list Attempt) (w : World)
  : World :=
  match attempts with
  | [] => w
  | a :: rest => session page rest (exec (submit page (met a)) (begin a w))
  end.

(** An attempt of a human visitor that the API accepts, and whose reply
    arrives by the time [T] and less than one hour before it. *)
Definition succeeds_by (T : Z) (a : Attempt) : Prop :=
  honeypot_filled (filled a) = false ∧ is_2xx (reply (met a)) = true ∧
  arrival (met a) ≤ T ∧ T - arrival (met a) < 3600000.


Definition with_search (params : list (string * string)) (page : Page)
  : Page :=
  {| search := params; referrer := referrer page;
     referrer_host := referrer_host page; hostname := hostname page;
     href := href page; userAgent := userAgent page |}.

(** Ten accepted attempts, one a minute. *)
Definition demo_attempts : list Attempt :=
  (λ i, {| started := 1000000 + 60000 * Z.of_nat i;
           filled := demo_form;
           met := {| reply := Resolved 200 NotJson;
                     arrival := 1000500 + 60000 * Z.of_nat i |} |})
    <$> seq 0 10.

(** A further attempt, a minute after the last of them. *)
Definition demo_eleventh : Attempt :=
  {| started := 1600000; filled := demo_form;
     met := {| reply := Resolved 200 NotJson; arrival := 1600500 |} |}.

(** ** The mobile navigation *)

(** Whether [navMenu] and [navToggle] carry the class [active]. *)
Record Nav := {
  menu_active : bool;
  toggle_active : bool
}.

(** Where a click lands.  The toggle and the menu are taken to be two
    separate elements of the page, neither inside the other. *)
Inductive Target :=
| OnToggle       (* the toggle or something inside it *)
| OnMenuLink     (* a link of the menu or something inside it *)
| InMenu         (* the menu, outside its links *)
| Elsewhere.

Definition navToggle_contains (t : Target) : bool :=
  match t with
  | OnToggle => true
  | _ => false
  end.

Definition navMenu_contains (t : Target) : bool :=
  match t with
  | OnMenuLink | InMenu => true
  | _ => false
  end.

(** The listener of the toggle: [classList.toggle('active')] on both. *)
Definition toggle_listener (n : Nav) : Nav :=
  {| menu_active := negb (menu_active n);
     toggle_active := negb (toggle_active n) |}.

(** [classList.remove('active')] on both. *)
Definition remove_active (n : Nav) : Nav :=
  {| menu_active := false; toggle_active := false |}.

(** The listener of the document: close on a click outside both. *)
Definition document_listener (t : Target) (n : Nav) : Nav :=
  if negb (navToggle_contains t) && negb (navMenu_contains t)
  then remove_active n else n.

(** The listener of each link of the menu. *)
Definition link_listener (n : Nav) : Nav := remove_active n.

(** A click bubbles from its target to the document: the listener of
    the element it lands in runs first, the listener of the document
    last. *)
Definition click (t : Target) (n : Nav) : Nav :=
  document_listener t
    match t with
    | OnToggle => toggle_listener n
    | OnMenuLink => link_listener n
    | InMenu | Elsewhere => n
    end.

Definition clicks (ts : list Target) (n : Nav) : Nav :=
  fold_left (λ n t, click t n) ts n.

(** The menu as one bit, open or closed: the toggle flips it, a click
    on a link of the menu or outside closes it, a click inside the menu
    off its links leaves it. *)
Definition spec_menu_open (ts : list Target) (open : bool) : bool :=
  fold_left
    (λ open t,
       match t with
       | OnToggle => negb open
       | OnMenuLink | Elsewhere => false
       | InMenu => open
       end)
    ts open.

(** The navigation as a page shows it first: the menu closed. *)
Definition demo_nav_closed : Nav :=
  {| menu_active := false; toggle_active := false |}.

(** * Properties *)

(** ** Running the monad *)

Ltac unfold_m :=
  unfold mbind, M_bind, mret, M_ret, throw, try_catch, try_finally,
    modify, get_world, run, exec in *.

Lemma window_is_one_hour : RATE_LIMIT_WINDOW_MS = 3600000.
Proof. reflexivity. Qed.

Lemma fresh_spec_prune now l : List.filter (fresh now) l = spec_prune now l.
Proof. reflexivity. Qed.

(** The rate check is a function of the storage and the clock, and
    leaves the state as it found it. *)
Lemma checkRateLimit_spec (w : World) :
  checkRateLimit w = (Return (spec_rateCheck w), w).
Proof.
  unfold checkRateLimit, spec_rateCheck, spec_pruned, spec_ledger,
    Date_now, localStorage_getItem, RATE_LIMIT_MAX.
  unfold_m.
  destruct (blocked (localStorage w)); [reflexivity |].
  destruct (items (localStorage w) !! RATE_LIMIT_KEY) as [[| | | l] |];
    simpl; try reflexivity.
  rewrite fresh_spec_prune.
  case_bool_decide; [| reflexivity].
  destruct (Js.Math_min (spec_prune (clock w) l)) as [oldest |]; simpl;
    [| reflexivity].
  reflexivity.
Qed.

Lemma recordSubmission_spec (w : World) :
  recordSubmission w = (Return tt, spec_recorded w).
Proof.
  unfold recordSubmission, spec_recorded, ledger_usable, spec_pruned,
    spec_ledger, Date_now, localStorage_getItem, localStorage_setItem,
    JSON_stringify.
  unfold_m.
  destruct (blocked (localStorage w)) eqn:Hb; [reflexivity |].
  destruct (items (localStorage w) !! RATE_LIMIT_KEY) as [[| | | l] |];
    simpl; rewrite ?Hb; simpl; try reflexivity;
    destruct (full (localStorage w)); reflexivity.
Qed.

(** ** Arithmetic of the wait *)

Lemma fold_min_le (rest : list Z) (x : Z) :
  fold_left Z.min rest x ≤ x ∧ ∀ y, y ∈ rest → fold_left Z.min rest x ≤ y.
Proof.
  revert x. induction rest as [| z rest IH]; intros x; simpl.
  - split; [lia |]. intros y Hy. inversion Hy.
  - destruct (IH (Z.min x z)) as [Hx Hrest]. split; [lia |].
    intros y Hy. apply elem_of_cons in Hy as [-> | Hy]; [lia | auto].
Qed.

Lemma fold_min_elem (rest : list Z) (x : Z) :
  fold_left Z.min rest x ∈ x :: rest.
Proof.
  revert x. induction rest as [| z rest IH]; intros x; simpl.
  - apply list_elem_of_here.
  - specialize (IH (Z.min x z)).
    apply elem_of_cons in IH as [Heq | Hin].
    + rewrite Heq. destruct (Z.min_spec x z) as [[_ ->] | [_ ->]].
      * apply list_elem_of_here.
      * apply list_elem_of_further, list_elem_of_here.
    + do 2 apply list_elem_of_further. exact Hin.
Qed.

(** [Math.min] of a sequence that is not empty is its least element. *)
Lemma Math_min_least (xs : list Z) (m : Z) :
  Js.Math_min xs = Some m → m ∈ xs ∧ ∀ y, y ∈ xs → m ≤ y.
Proof.
  destruct xs as [| x rest]; simpl; [discriminate |].
  intros [= <-]. split; [apply fold_min_elem |].
  intros y Hy. destruct (fold_min_le rest x) as [Hx Hrest].
  apply elem_of_cons in Hy as [-> | Hy]; auto.
Qed.

Lemma Math_min_nonempty (xs : list Z) :
  (0 < length xs)%nat → ∃ m, Js.Math_min xs = Some m.
Proof. destruct xs; simpl; [lia | eauto]. Qed.

(** [Math.ceil(a / b)] is the least integer [c] with [a ≤ b * c]. *)
Lemma Math_ceil_div_spec (a b : Z) :
  0 < b →
  b * (Js.Math_ceil_div a b - 1) < a ≤ b * Js.Math_ceil_div a b.
Proof.
  intros Hb. unfold Js.Math_ceil_div.
  pose proof (Z.div_mod (- a) b ltac:(lia)) as Hdm.
  pose proof (Z.mod_pos_bound (- a) b Hb) as Hm.
  nia.
Qed.

(** ** The rate check *)

(** C1. For every stored ledger and every clock reading, the rate check
    allows exactly when fewer than ten entries of the ledger have an age
    of less than one hour; an allowed result carries exactly those
    entries, and with ten or more of them the result is a denial. *)
Theorem C1_checkRateLimit_allowed_iff (w : World) :
  ∃ r, run checkRateLimit w = Return r ∧
       (is_allowed r = true ↔ (length (spec_pruned w) < 10)%nat) ∧
       (is_allowed r = true → r = Allowed (spec_pruned w)) ∧
       ((10 ≤ length (spec_pruned w))%nat → ∃ msg, r = Denied msg).
Proof.
  exists (spec_rateCheck w). unfold run. rewrite checkRateLimit_spec.
  split; [reflexivity |]. unfold spec_rateCheck.
  case_bool_decide as Hlen; simpl.
  - split; [| split].
    + split; [discriminate | lia].
    + discriminate.
    + eauto.
  - split; [| split].
    + split; [lia | reflexivity].
    + reflexivity.
    + lia.
Qed.

(** C3. When the rate check denies, its message gives the wait in whole
    minutes: the least integer [minutes] with
    [oldest + one hour - now ≤ 60000 * minutes], where [oldest] is the
    least of the remaining timestamps; the wording is "1 minute" for one
    and carries the plural "s" for every other number. *)
Theorem C3_denial_wait_minutes (w : World) :
  (10 ≤ length (spec_pruned w))%nat →
  ∃ oldest minutes : Z,
    oldest ∈ spec_pruned w ∧
    (∀ ts, ts ∈ spec_pruned w → oldest ≤ ts) ∧
    60000 * (minutes - 1) < oldest + 3600000 - clock w ≤ 60000 * minutes ∧
    run checkRateLimit w =
      Return (Denied ("Too many submissions. Please try again in "
                        +:+ pretty minutes
                        +:+ (if bool_decide (minutes = 1) then " minute."
                             else " minutes."))).
Proof.
  intros Hlen. unfold run. rewrite checkRateLimit_spec. unfold spec_rateCheck.
  rewrite bool_decide_eq_true_2 by exact Hlen.
  destruct (Math_min_nonempty (spec_pruned w)) as [oldest Hmin]; [lia |].
  rewrite Hmin. simpl.
  destruct (Math_min_least _ _ Hmin) as [Hin Hleast].
  exists oldest, (Js.Math_ceil_div (oldest + 3600000 - clock w) 60000).
  split; [exact Hin |]. split; [exact Hleast |].
  split; [apply Math_ceil_div_spec; lia |].
  unfold denial_message, Js.show_number.
  set (m := Js.Math_ceil_div _ _).
  destruct (decide (m = 1)) as [Hm | Hm].
  - rewrite !bool_decide_eq_true_2 by congruence. reflexivity.
  - rewrite !bool_decide_eq_false_2 by congruence. reflexivity.
Qed.

Lemma C3_denial_wait_minutes_witness :
  (10 ≤ length (spec_pruned demo_denied_world))%nat ∧
  ∃ oldest minutes : Z,
    oldest ∈ spec_pruned demo_denied_world ∧
    (∀ ts, ts ∈ spec_pruned demo_denied_world → oldest ≤ ts) ∧
    60000 * (minutes - 1) < oldest + 3600000 - clock demo_denied_world
      ≤ 60000 * minutes ∧
    run checkRateLimit demo_denied_world =
      Return (Denied ("Too many submissions. Please try again in "
                        +:+ pretty minutes
                        +:+ (if bool_decide (minutes = 1) then " minute."
                             else " minutes."))).
Proof.
  split.
  - vm_compute. lia.
  - apply (C3_denial_wait_minutes demo_denied_world). vm_compute. lia.
Defined.

(** The sample ledger at 1 600 000 ms: the oldest entry leaves the window
    in fifty minutes. *)
Example checkRateLimit_fifty_minutes :
  run checkRateLimit demo_denied_world
  = Return (Denied "Too many submissions. Please try again in 50 minutes.").
Proof. vm_compute. reflexivity. Qed.

Example checkRateLimit_one_minute :
  run checkRateLimit
    (demo_world (demo_storage (Some (Timestamps demo_ten))) 4540001 demo_form)
  = Return (Denied "Too many submissions. Please try again in 1 minute.").
Proof. vm_compute. reflexivity. Qed.

(** ** The handler *)

Lemma spec_rateCheck_emit (e : Event) (w : World) :
  spec_rateCheck (emit e w) = spec_rateCheck w.
Proof. reflexivity. Qed.

(** The handler never throws, and its effect on the state is
    [spec_submit]. *)
Lemma submit_spec (page : Page) (net : Net) (w : World) :
  submit page net w = (Return tt, spec_submit page net w).
Proof.
  unfold submit, spec_submit, preventDefault.
  unfold_m. cbn [form emit].
  destruct (honeypot_filled (form w)); [reflexivity |].
  rewrite checkRateLimit_spec, spec_rateCheck_emit.
  destruct (spec_rateCheck w) as [subs | msg]; [| reflexivity].
  unfold set_btn_disabled, set_btn_text, set_status_text, set_status_class,
    set_status_display, reset_form, fetch, Response_ok, Response_json,
    prop_error, prop_message, is_2xx, spec_final_status.
  unfold_m.
  destruct net as [[| st b] t]; cbn [reply arrival]; [reflexivity |].
  cbn [status body].
  case_bool_decide.
  - rewrite recordSubmission_spec. unfold spec_recorded.
    destruct (ledger_usable _); reflexivity.
  - destruct b as [| [| e m]]; try reflexivity.
    destruct e as [[| c e] |], m as [[| c' m] |]; reflexivity.
Qed.

(** ** Attribution *)

Lemma truthy_opt_present (o : option string) :
  Js.truthy_opt o = present_nonempty o.
Proof. destruct o as [[| c s] |]; reflexivity. Qed.

Lemma truthy_nonempty (s : string) :
  Js.truthy s = negb (bool_decide (s = "")).
Proof. destruct s; reflexivity. Qed.

Lemma classify_cascade (host : string) :
  (if Js.includes host "google" then "google"
   else if Js.includes host "facebook" || Js.includes host "fb.com"
        then "facebook"
   else if Js.includes host "twitter" || Js.includes host "t.co"
        then "twitter"
   else if Js.includes host "linkedin" then "linkedin"
   else if Js.includes host "instagram" then "instagram"
   else host) = spec_classify host.
Proof.
  unfold spec_classify, spec_platforms. cbn [List.find existsb fst snd].
  destruct (Js.includes host "google"); [reflexivity |].
  destruct (Js.includes host "facebook"); [reflexivity |].
  destruct (Js.includes host "fb.com"); [reflexivity |].
  destruct (Js.includes host "twitter"); [reflexivity |].
  destruct (Js.includes host "t.co"); [reflexivity |].
  destruct (Js.includes host "linkedin"); [reflexivity |].
  destruct (Js.includes host "instagram"); reflexivity.
Qed.

(** C2, as amended. [getSource] returns the value of [utm_source] when
    that parameter has a value that is not empty, else that of [ref],
    else that of [source], under the same condition; else, when there is
    a referrer, "internal" for the page's own host, the first platform of
    the ordered table whose substring the host contains, or the raw host,
    and "unknown" when the referrer does not parse; else "direct". *)
Theorem C2_getSource_precedence (page : Page) :
  getSource page = spec_getSource present_nonempty page.
Proof.
  unfold getSource, spec_getSource, spec_referrer_source.
  cbn [fmap list_fmap List.find].
  rewrite !truthy_opt_present, truthy_nonempty.
  destruct (present_nonempty (params_get (search page) "utm_source"));
    [reflexivity |].
  destruct (present_nonempty (params_get (search page) "ref"));
    [reflexivity |].
  destruct (present_nonempty (params_get (search page) "source"));
    [reflexivity |].
  destruct (bool_decide (referrer page = "")); cbn [negb]; [reflexivity |].
  destruct (referrer_host page) as [host |]; [| reflexivity].
  destruct (String.eqb_spec host (hostname page)) as [Heq | Hne].
  - rewrite bool_decide_eq_true_2 by exact Heq. reflexivity.
  - rewrite bool_decide_eq_false_2 by exact Hne. apply classify_cascade.
Qed.

(** A query with an empty [utm_source] and a [ref]: the script passes
    over the empty value and answers with [ref], where the sentence of
    the specification, which asks only for the parameter to be present,
    gives the empty value. *)
Lemma C2_getSource_empty_param_counterexample :
  getSource demo_empty_utm_page = "aff" ∧
  spec_getSource present_as_stated demo_empty_utm_page = "" ∧
  getSource demo_empty_utm_page
    ≠ spec_getSource present_as_stated demo_empty_utm_page.
Proof. vm_compute. repeat split; discriminate. Qed.

(** The examples of the specification. *)
Example getSource_utm_beats_ref (ref : string) (host : option string) :
  getSource (demo_page [("utm_source", "news"); ("ref", "aff")] ref host)
  = "news".
Proof. reflexivity. Qed.

Example getSource_facebook :
  getSource (demo_page [] "https://m.facebook.com/" (Some "m.facebook.com"))
  = "facebook".
Proof. reflexivity. Qed.

Example getSource_internal :
  getSource (demo_page [] "https://www.gadgetcloud.io/index.html"
               (Some "www.gadgetcloud.io"))
  = "internal".
Proof. reflexivity. Qed.

Example getSource_unknown :
  getSource (demo_page [] "not a url" None) = "unknown".
Proof. reflexivity. Qed.

Example getSource_direct : getSource (demo_page [] "" None) = "direct".
Proof. reflexivity. Qed.

(** The order of the table decides when a host names two platforms. *)
Example getSource_first_platform_wins :
  getSource (demo_page [] "https://twitter.google.com/"
               (Some "twitter.google.com"))
  = "google".
Proof. reflexivity. Qed.

(** ** The guards of the handler *)

Lemma passes_guards_inv (w : World) :
  passes_guards w = true →
  honeypot_filled (form w) = false ∧ ∃ subs, spec_rateCheck w = Allowed subs.
Proof.
  unfold passes_guards, run. rewrite checkRateLimit_spec. cbn [fst].
  intros [Hh Ha]%andb_true_iff. split.
  - destruct (honeypot_filled (form w)); [discriminate | reflexivity].
  - destruct (spec_rateCheck w) as [subs | msg]; [eauto | discriminate].
Qed.

Lemma requests_emit_PreventDefault (l : list Event) :
  requests (l ++ [PreventDefault]) = requests l.
Proof. unfold requests. rewrite omap_app. cbn. apply app_nil_r. Qed.

Lemma honeypot_filled_Some (f : Form) (v : string) :
  honeypot f = Some v → v ≠ "" → honeypot_filled f = true.
Proof.
  intros Hv Hne. unfold honeypot_filled. rewrite Hv.
  destruct v; [congruence | reflexivity].
Qed.

(** C4. When the honeypot field has a value that is not empty, the
    handler stops at once: it returns, sends no request and leaves the
    status line, and everything else but the cancelled default action,
    as it was. *)
Theorem C4_honeypot_silent (page : Page) (net : Net) (w : World) (v : string) :
  honeypot (form w) = Some v → v ≠ "" →
  run (submit page net) w = Return tt ∧
  requests (log (exec (submit page net) w)) = requests (log w) ∧
  formStatus (exec (submit page net) w) = formStatus w ∧
  exec (submit page net) w = emit PreventDefault w.
Proof.
  intros Hv Hne. unfold run, exec. rewrite submit_spec. cbn [fst snd].
  unfold spec_submit. rewrite (honeypot_filled_Some _ _ Hv Hne).
  split; [reflexivity |]. split; [apply requests_emit_PreventDefault |].
  split; reflexivity.
Qed.

Lemma C4_honeypot_silent_witness :
  run (submit (demo_page [] "" None) (demo_net 200 NotJson)) demo_bot_world
    = Return tt ∧
  requests (log (exec (submit (demo_page [] "" None) (demo_net 200 NotJson))
                   demo_bot_world))
    = requests (log demo_bot_world) ∧
  formStatus (exec (submit (demo_page [] "" None) (demo_net 200 NotJson))
                demo_bot_world)
    = formStatus demo_bot_world ∧
  exec (submit (demo_page [] "" None) (demo_net 200 NotJson)) demo_bot_world
    = emit PreventDefault demo_bot_world.
Proof.
  apply (C4_honeypot_silent (demo_page [] "" None) (demo_net 200 NotJson)
           demo_bot_world "http://spam.example").
  - reflexivity.
  - discriminate.
Defined.

(** Ten timestamps within the last hour all survive the pruning. *)
Lemma spec_prune_all (now : Z) (l : list Z) :
  (∀ ts, ts ∈ l → now - 3600000 < ts ≤ now) → spec_prune now l = l.
Proof.
  intros Hall. unfold spec_prune. induction l as [| x l IH]; [reflexivity |].
  cbn [List.filter]. rewrite bool_decide_eq_true_2.
  - f_equal. apply IH. intros ts Hts. apply Hall. by apply list_elem_of_further.
  - specialize (Hall x (list_elem_of_here _ _)). lia.
Qed.

(** C5. With the honeypot empty, a denial of the rate check ends the
    handler: it returns, shows the denial message as an error status and
    sends no request; and a ledger of ten timestamps within the last
    hour is denied. *)
Theorem C5_denied_no_request (page : Page) (net : Net) (w : World) :
  honeypot_filled (form w) = false →
  (∀ msg, run checkRateLimit w = Return (Denied msg) →
     run (submit page net) w = Return tt ∧
     formStatus (exec (submit page net) w) = error_status msg ∧
     requests (log (exec (submit page net) w)) = requests (log w) ∧
     exec (submit page net) w
       = set_formStatus (error_status msg) (emit PreventDefault w)) ∧
  (∀ l, blocked (localStorage w) = false →
     items (localStorage w) !! RATE_LIMIT_KEY = Some (Timestamps l) →
     length l = 10%nat →
     (∀ ts, ts ∈ l → clock w - 3600000 < ts ≤ clock w) →
     ∃ msg, run checkRateLimit w = Return (Denied msg)).
Proof.
  intros Hh. split.
  - intros msg Hdenied. unfold run, exec in *.
    rewrite checkRateLimit_spec in Hdenied. cbn [fst] in Hdenied.
    injection Hdenied as Hdenied.
    rewrite submit_spec. cbn [fst snd]. unfold spec_submit.
    rewrite Hh, Hdenied.
    split; [reflexivity |]. split; [reflexivity |].
    split; [apply requests_emit_PreventDefault | reflexivity].
  - intros l Hb Hl Hlen Hall. unfold run. rewrite checkRateLimit_spec.
    cbn [fst]. unfold spec_rateCheck, spec_pruned, spec_ledger.
    rewrite Hb, Hl, (spec_prune_all _ _ Hall), Hlen.
    rewrite bool_decide_eq_true_2 by lia. eauto.
Qed.

Lemma C5_denied_no_request_witness :
  run (submit (demo_page [] "" None) (demo_net 200 NotJson)) demo_denied_world
    = Return tt ∧
  formStatus (exec (submit (demo_page [] "" None) (demo_net 200 NotJson))
                demo_denied_world)
    = error_status "Too many submissions. Please try again in 50 minutes." ∧
  requests (log (exec (submit (demo_page [] "" None) (demo_net 200 NotJson))
                   demo_denied_world))
    = [].
Proof.
  destruct (C5_denied_no_request (demo_page [] "" None) (demo_net 200 NotJson)
              demo_denied_world eq_refl) as [Hdenied _].
  destruct (Hdenied "Too many submissions. Please try again in 50 minutes."
              ltac:(vm_compute; reflexivity)) as (Hrun & Hstatus & Hreq & _).
  split; [exact Hrun |]. split; [exact Hstatus | exact Hreq].
Defined.

(** ** A 2xx reply *)

Lemma spec_submit_allowed (page : Page) (net : Net) (w : World) :
  passes_guards w = true →
  spec_submit page net w =
    set_submitBtn {| disabled := false; label := "Send Message" |}
      (set_formStatus (spec_final_status (reply net))
         (if is_2xx (reply net)
          then set_form (Form_reset (form w))
                 (spec_recorded (in_flight page net w))
          else in_flight page net w)).
Proof.
  intros [Hh [subs Hsubs]]%passes_guards_inv.
  unfold spec_submit. rewrite Hh, Hsubs. reflexivity.
Qed.

Lemma localStorage_spec_recorded (w : World) :
  localStorage (spec_recorded w) =
    if ledger_usable (localStorage w)
    then {| items := <[RATE_LIMIT_KEY :=
                         Timestamps (spec_pruned w ++ [clock w])]>
                       (items (localStorage w));
            blocked := blocked (localStorage w);
            full := full (localStorage w) |}
    else localStorage w.
Proof. unfold spec_recorded. destruct (ledger_usable _); reflexivity. Qed.

Lemma visible_spec_recorded (w : World) :
  visible (spec_recorded w) = visible w.
Proof. unfold spec_recorded. destruct (ledger_usable _); reflexivity. Qed.

Lemma is_2xx_final_status (r : Reply) :
  is_2xx r = true → spec_final_status r = success_status.
Proof.
  destruct r as [| st b]; cbn; [discriminate |].
  intros H. rewrite H. reflexivity.
Qed.

(** C6, as amended. After a 2xx reply the handler calls
    [recordSubmission], shows the success message and empties the
    fields.  When the ledger can be read, parsed and written, the stored
    ledger becomes the sequence pruned at that moment followed by the
    current timestamp, and no other key changes; when it cannot, the
    storage stays as it was. *)
Theorem C6_success_records_when_usable (page : Page) (net : Net) (w : World) :
  passes_guards w = true → is_2xx (reply net) = true →
  run (submit page net) w = Return tt ∧
  localStorage (exec (submit page net) w)
    = localStorage (exec recordSubmission (in_flight page net w)) ∧
  formStatus (exec (submit page net) w) = success_status ∧
  firstName (form (exec (submit page net) w)) = "" ∧
  lastName (form (exec (submit page net) w)) = "" ∧
  email (form (exec (submit page net) w)) = "" ∧
  message (form (exec (submit page net) w)) = "" ∧
  (ledger_usable (localStorage w) = true →
     items (localStorage (exec (submit page net) w))
       = <[RATE_LIMIT_KEY :=
             Timestamps (spec_prune (arrival net) (spec_ledger w)
                           ++ [arrival net])]> (items (localStorage w))) ∧
  (ledger_usable (localStorage w) = false →
     localStorage (exec (submit page net) w) = localStorage w).
Proof.
  intros Hg Hok. unfold run, exec.
  rewrite submit_spec, recordSubmission_spec. cbn [fst snd].
  rewrite (spec_submit_allowed _ _ _ Hg), Hok, (is_2xx_final_status _ Hok).
  split; [reflexivity |]. split; [reflexivity |].
  do 5 (split; [reflexivity |]).
  cbn [localStorage set_submitBtn set_formStatus set_form].
  rewrite localStorage_spec_recorded.
  change (localStorage (in_flight page net w)) with (localStorage w).
  split; intros Hu; rewrite Hu; reflexivity.
Qed.

Lemma C6_success_records_when_usable_witness :
  items (localStorage
           (exec (submit (demo_page [] "" None) (demo_net 200 NotJson))
              demo_fresh_world))
    !! RATE_LIMIT_KEY
  = Some (Timestamps [1600500]).
Proof.
  destruct (C6_success_records_when_usable (demo_page [] "" None)
              (demo_net 200 NotJson) demo_fresh_world eq_refl eq_refl)
    as (_ & _ & _ & _ & _ & _ & _ & Husable & _).
  rewrite (Husable eq_refl). reflexivity.
Defined.

(** A storage that takes no more writes: the reply is 200, and the ledger
    still holds its one entry, where the sentence of the specification
    promises it a second one. *)
Lemma C6_full_storage_counterexample :
  ¬ spec_success_as_stated (demo_page [] "" None) (demo_net 200 NotJson)
      demo_full_world.
Proof.
  intros H. destruct (H eq_refl eq_refl) as [Hledger _].
  vm_compute in Hledger. discriminate Hledger.
Qed.

(** The end-to-end example of the specification. *)
Example submit_success_example :
  visible (exec (submit (demo_page [] "" None) (demo_net 200 NotJson))
             demo_fresh_world)
  = ({| firstName := ""; lastName := ""; email := ""; message := "";
        honeypot := Some "" |},
     {| disabled := false; label := "Send Message" |},
     success_status,
     [PreventDefault;
      Fetch (the_request (demo_page [] "" None) demo_fresh_world)]).
Proof. vm_compute. reflexivity. Qed.

(** ** A reply outside 2xx *)

Lemma not_2xx (net : Net) (st : Z) (b : Body) :
  reply net = Resolved st b → ¬ (200 ≤ st ≤ 299) → is_2xx (reply net) = false.
Proof.
  intros -> Hst. cbn. apply bool_decide_eq_false_2. exact Hst.
Qed.

(** C7, as amended. After a reply outside 2xx the fields of the form
    keep their values, and when the body is not the JSON value null the
    status line shows, as an error, the [error] field of the body if it
    is present and not empty, else its [message] field if it is present
    and not empty, else the fallback text. *)
Theorem C7_http_error_text (page : Page) (net : Net) (w : World)
    (st : Z) (b : Body) :
  passes_guards w = true →
  reply net = Resolved st b → ¬ (200 ≤ st ≤ 299) →
  run (submit page net) w = Return tt ∧
  form (exec (submit page net) w) = form w ∧
  (b ≠ IsJson JsonNull →
     formStatus (exec (submit page net) w) = error_status (spec_error_text b)).
Proof.
  intros Hg Hreply Hst. unfold run, exec. rewrite submit_spec. cbn [fst snd].
  rewrite (spec_submit_allowed _ _ _ Hg), (not_2xx _ _ _ Hreply Hst), Hreply.
  split; [reflexivity |]. split; [reflexivity |].
  intros Hb. cbn. rewrite bool_decide_eq_false_2 by exact Hst.
  destruct b as [| [| e m]]; [reflexivity | congruence | reflexivity].
Qed.

Lemma C7_http_error_text_witness :
  formStatus (exec (submit (demo_page [] "" None) demo_empty_error_net)
                demo_fresh_world)
    = error_status "Email is invalid" ∧
  form (exec (submit (demo_page [] "" None) demo_empty_error_net)
          demo_fresh_world)
    = demo_form.
Proof.
  destruct (C7_http_error_text (demo_page [] "" None) demo_empty_error_net
              demo_fresh_world 400
              (IsJson (JsonValue (Some "") (Some "Email is invalid")))
              eq_refl eq_refl ltac:(lia))
    as (_ & Hform & Hstatus).
  split; [apply Hstatus; discriminate | exact Hform].
Defined.

(** An empty [error] field beside a [message]: the script shows the
    message, where the sentence of the specification, which asks only
    for the field to be present, shows the empty text. *)
Lemma C7_empty_error_counterexample :
  ¬ spec_http_error_as_stated (demo_page [] "" None) demo_empty_error_net
      demo_fresh_world.
Proof.
  intros H.
  destruct (H eq_refl 400 _ eq_refl ltac:(lia)) as [Hstatus _].
  vm_compute in Hstatus. discriminate Hstatus.
Qed.

(** The example of the tests: a 400 with an [error] text. *)
Example submit_400_example :
  visible (exec (submit (demo_page [] "" None)
                   (demo_net 400 (IsJson (JsonValue
                      (Some "firstName: Must be at least 2 characters") None))))
             demo_fresh_world)
  = (demo_form,
     {| disabled := false; label := "Send Message" |},
     error_status "firstName: Must be at least 2 characters",
     [PreventDefault;
      Fetch (the_request (demo_page [] "" None) demo_fresh_world)]).
Proof. vm_compute. reflexivity. Qed.

(** A JSON body that is null: reading its [error] field throws, and the
    handler reports a connection problem. *)
Example submit_null_body_example :
  formStatus (exec (submit (demo_page [] "" None)
                      (demo_net 500 (IsJson JsonNull)))
                demo_fresh_world)
  = error_status connectivity_text.
Proof. vm_compute. reflexivity. Qed.

(** ** The submit control *)

(** C8. Whatever the network does to a submission that passed the
    guards (a 2xx reply, a reply outside 2xx with any body, or a request
    that never completes), the handler returns with the submit control
    enabled and labelled as it was before the submission. *)
Theorem C8_button_restored (page : Page) (net : Net) (w : World) :
  passes_guards w = true →
  run (submit page net) w = Return tt ∧
  submitBtn (exec (submit page net) w)
    = {| disabled := false; label := original_label |}.
Proof.
  intros Hg. unfold run, exec. rewrite submit_spec. cbn [fst snd].
  rewrite (spec_submit_allowed _ _ _ Hg). split; reflexivity.
Qed.

Lemma C8_button_restored_witness :
  submitBtn (exec (submit (demo_page [] "" None)
                     {| reply := Rejected; arrival := 1630000 |})
               demo_fresh_world)
    = submitBtn demo_fresh_world ∧
  formStatus (exec (submit (demo_page [] "" None)
                      {| reply := Rejected; arrival := 1630000 |})
                demo_fresh_world)
    = error_status connectivity_text.
Proof.
  split.
  - apply (C8_button_restored (demo_page [] "" None)
             {| reply := Rejected; arrival := 1630000 |} demo_fresh_world).
    reflexivity.
  - vm_compute. reflexivity.
Defined.

(** ** Storage faults *)

Lemma with_full_visible (b : bool) (page : Page) (net : Net) (w : World) :
  visible (spec_submit page net (with_full b w))
    = visible (spec_submit page net w).
Proof.
  unfold spec_submit.
  change (form (with_full b w)) with (form w).
  change (spec_rateCheck (with_full b w)) with (spec_rateCheck w).
  destruct (honeypot_filled (form w)); [reflexivity |].
  destruct (spec_rateCheck w) as [subs | msg]; [| reflexivity].
  destruct (is_2xx (reply net)); [| reflexivity].
  unfold visible.
  cbn [form submitBtn formStatus log set_submitBtn set_formStatus set_form].
  pose proof (visible_spec_recorded (in_flight page net (with_full b w))) as H1.
  pose proof (visible_spec_recorded (in_flight page net w)) as H2.
  unfold visible in H1, H2.
  injection H1 as _ _ _ H1. injection H2 as _ _ _ H2.
  rewrite H1, H2. reflexivity.
Qed.

(** C9. Storage faults stay out of sight.  When the storage cannot be
    read, or the stored text does not parse to an array, the rate check
    allows with an empty sequence.  [recordSubmission] always returns
    normally and changes nothing the user can see; when the write fails
    it changes nothing at all; and what the handler shows is the same
    whether or not the storage takes the write. *)
Theorem C9_storage_faults_invisible :
  (∀ w, blocked (localStorage w) = true
        ∨ items (localStorage w) !! RATE_LIMIT_KEY = Some Garbled
        ∨ items (localStorage w) !! RATE_LIMIT_KEY = Some Scalar →
        run checkRateLimit w = Return (Allowed [])) ∧
  (∀ w, run recordSubmission w = Return tt
        ∧ visible (exec recordSubmission w) = visible w) ∧
  (∀ w, blocked (localStorage w) = true ∨ full (localStorage w) = true →
        exec recordSubmission w = w) ∧
  (∀ page net w,
     run (submit page net) (with_full true w)
       = run (submit page net) (with_full false w)
     ∧ visible (exec (submit page net) (with_full true w))
       = visible (exec (submit page net) (with_full false w))).
Proof.
  split; [| split; [| split]].
  - intros w Hfault. unfold run. rewrite checkRateLimit_spec. cbn [fst].
    unfold spec_rateCheck, spec_pruned, spec_ledger.
    destruct Hfault as [-> | [-> | ->]]; [reflexivity | |];
      destruct (blocked (localStorage w)); reflexivity.
  - intros w. unfold run, exec. rewrite recordSubmission_spec. cbn [fst snd].
    split; [reflexivity | apply visible_spec_recorded].
  - intros w Hfault. unfold exec. rewrite recordSubmission_spec. cbn [snd].
    unfold spec_recorded, ledger_usable.
    destruct Hfault as [-> | ->]; [reflexivity |].
    rewrite andb_false_r. reflexivity.
  - intros page net w. unfold run, exec. rewrite !submit_spec. cbn [fst snd].
    split; [reflexivity |]. rewrite !with_full_visible. reflexivity.
Qed.

(** A storage that throws on every access, and a stored text that is
    not JSON: the check fails open, and a later 200 leaves no trace. *)
Example checkRateLimit_blocked_storage :
  run checkRateLimit
    (demo_world {| items := {[ RATE_LIMIT_KEY := Timestamps demo_ten ]};
                   blocked := true; full := false |} 1600000 demo_form)
  = Return (Allowed []).
Proof. vm_compute. reflexivity. Qed.

Example recordSubmission_garbled_ledger :
  recordSubmission (demo_world (demo_storage (Some Garbled)) 1600000 demo_form)
  = (Return tt, demo_world (demo_storage (Some Garbled)) 1600000 demo_form).
Proof. vm_compute. reflexivity. Qed.

(** ** The frame of the rate check *)

(** C10. The rate check writes nothing: the state after it, and with it
    every value of the storage, is the state before it.  In the handler
    the storage changes only by the call of [recordSubmission], which a
    submission reaches only when it passed the guards and got a 2xx
    reply. *)
Theorem C10_checkRateLimit_reads_only :
  (∀ w, exec checkRateLimit w = w) ∧
  (∀ page net w,
     localStorage (exec (submit page net) w) = localStorage w
     ∨ (passes_guards w = true ∧ is_2xx (reply net) = true ∧
        localStorage (exec (submit page net) w)
          = localStorage (exec recordSubmission (in_flight page net w)))).
Proof.
  split.
  - intros w. unfold exec. rewrite checkRateLimit_spec. reflexivity.
  - intros page net w. unfold exec, passes_guards, run.
    rewrite submit_spec, recordSubmission_spec, checkRateLimit_spec.
    cbn [fst snd]. unfold spec_submit.
    destruct (honeypot_filled (form w)); [left; reflexivity |].
    destruct (spec_rateCheck w) as [subs | msg]; [| left; reflexivity].
    destruct (is_2xx (reply net)); [| left; reflexivity].
    right. repeat split; reflexivity.
Qed.

(** [recordSubmission] writes under the rate-limit key only. *)
Lemma recordSubmission_other_keys (w : World) (key : string) :
  key ≠ RATE_LIMIT_KEY →
  items (localStorage (exec recordSubmission w)) !! key
    = items (localStorage w) !! key.
Proof.
  intros Hkey. unfold exec. rewrite recordSubmission_spec. cbn [snd].
  rewrite localStorage_spec_recorded.
  destruct (ledger_usable (localStorage w)); [| reflexivity].
  cbn [items]. apply lookup_insert_ne. congruence.
Qed.

(** A ledger with an expired entry: the check prunes its own copy and
    the stored text keeps the entry. *)
Example checkRateLimit_keeps_expired :
  checkRateLimit
    (demo_world (demo_storage (Some (Timestamps [5; 1000000]))) 3600005
       demo_form)
  = (Return (Allowed [1000000]),
     demo_world (demo_storage (Some (Timestamps [5; 1000000]))) 3600005
       demo_form).
Proof. vm_compute. reflexivity. Qed.

(** * Further properties of the rate limiter *)

(** ** Pruning *)

Lemma elem_of_spec_prune (now ts : Z) (l : list Z) :
  ts ∈ spec_prune now l ↔ ts ∈ l ∧ now - ts < 3600000.
Proof.
  unfold spec_prune. rewrite !list_elem_of_In, List.filter_In.
  rewrite bool_decide_eq_true. reflexivity.
Qed.

Lemma spec_prune_fresh (now : Z) (l : list Z) :
  (∀ ts, ts ∈ l → now - ts < 3600000) → spec_prune now l = l.
Proof.
  intros Hall. unfold spec_prune. induction l as [| x l IH]; [reflexivity |].
  cbn [List.filter]. rewrite bool_decide_eq_true_2.
  - f_equal. apply IH. intros ts Hts. apply Hall. by apply list_elem_of_further.
  - apply Hall, list_elem_of_here.
Qed.

Lemma spec_prune_idem (now : Z) (l : list Z) :
  spec_prune now (spec_prune now l) = spec_prune now l.
Proof.
  apply spec_prune_fresh. intros ts Hts.
  by apply elem_of_spec_prune in Hts as [_ Hts].
Qed.

Lemma spec_prune_app (now : Z) (l1 l2 : list Z) :
  spec_prune now (l1 ++ l2) = (spec_prune now l1 ++ spec_prune now l2)%list.
Proof. unfold spec_prune. apply List.filter_app. Qed.

Lemma spec_prune_length_le (now : Z) (l : list Z) :
  (length (spec_prune now l) ≤ length l)%nat.
Proof. apply List.filter_length_le. Qed.

(** Time only takes entries away. *)
Lemma spec_prune_length_mono (t1 t2 : Z) (l : list Z) :
  t1 ≤ t2 → (length (spec_prune t2 l) ≤ length (spec_prune t1 l))%nat.
Proof.
  intros Ht. unfold spec_prune. induction l as [| x l IH]; [reflexivity |].
  cbn [List.filter].
  destruct (decide (t2 - x < 3600000)) as [H2 | H2].
  - rewrite !bool_decide_eq_true_2 by lia. cbn. lia.
  - rewrite (bool_decide_eq_false_2 _ H2).
    case_bool_decide; cbn; lia.
Qed.

Lemma spec_prune_length_lt (now x : Z) (l : list Z) :
  x ∈ l → ¬ now - x < 3600000 →
  (length (spec_prune now l) < length l)%nat.
Proof.
  intros Hin Hold. unfold spec_prune.
  induction l as [| y l IH]; [inversion Hin |].
  cbn [List.filter]. apply elem_of_cons in Hin as [<- | Hin].
  - rewrite (bool_decide_eq_false_2 _ Hold).
    pose proof (List.filter_length_le (λ ts, bool_decide (now - ts < 3600000)) l).
    cbn. lia.
  - specialize (IH Hin). case_bool_decide; cbn; lia.
Qed.

(** ** The ledger after a record *)

Lemma ledger_usable_inv (s : Storage) :
  ledger_usable s = true → blocked s = false ∧ full s = false.
Proof.
  unfold ledger_usable. destruct (blocked s), (full s); cbn;
    intros H; try discriminate H; split; reflexivity.
Qed.

Lemma spec_ledger_recorded (w : World) :
  ledger_usable (localStorage w) = true →
  spec_ledger (spec_recorded w) = (spec_pruned w ++ [clock w])%list.
Proof.
  intros Hu. destruct (ledger_usable_inv _ Hu) as [Hb _].
  unfold spec_ledger at 1. rewrite localStorage_spec_recorded, Hu.
  cbn [blocked items]. rewrite Hb, lookup_insert_eq. reflexivity.
Qed.

Lemma ledger_usable_recorded (w : World) :
  ledger_usable (localStorage w) = true →
  ledger_usable (localStorage (spec_recorded w)) = true.
Proof.
  intros Hu. destruct (ledger_usable_inv _ Hu) as [Hb Hf].
  rewrite localStorage_spec_recorded, Hu. unfold ledger_usable.
  cbn [blocked full items]. rewrite Hb, Hf, lookup_insert_eq. reflexivity.
Qed.

Lemma spec_pruned_recorded (w : World) :
  ledger_usable (localStorage w) = true →
  spec_pruned (spec_recorded w) = (spec_pruned w ++ [clock w])%list.
Proof.
  intros Hu. unfold spec_pruned at 1.
  rewrite (spec_ledger_recorded _ Hu).
  replace (clock (spec_recorded w)) with (clock w)
    by (unfold spec_recorded; rewrite Hu; reflexivity).
  rewrite spec_prune_app. unfold spec_pruned. rewrite spec_prune_idem.
  f_equal. apply spec_prune_fresh. intros ts Hts.
  apply list_elem_of_singleton in Hts as ->. lia.
Qed.

(** X1. A record followed by a check at the same clock reading: when the
    ledger can be read, parsed and written, the check sees the entries
    that were fresh before, followed by the new one; it allows when
    fewer than nine were fresh and denies otherwise. *)
Theorem X1_record_then_check (w : World) :
  ledger_usable (localStorage w) = true →
  spec_pruned (exec recordSubmission w) = (spec_pruned w ++ [clock w])%list ∧
  ((length (spec_pruned w) < 9)%nat →
     run checkRateLimit (exec recordSubmission w)
       = Return (Allowed (spec_pruned w ++ [clock w]))) ∧
  ((9 ≤ length (spec_pruned w))%nat →
     ∃ msg, run checkRateLimit (exec recordSubmission w)
              = Return (Denied msg)).
Proof.
  intros Hu. unfold run, exec.
  rewrite recordSubmission_spec, checkRateLimit_spec. cbn [fst snd].
  unfold spec_rateCheck. rewrite (spec_pruned_recorded _ Hu).
  split; [reflexivity |]. rewrite length_app. cbn [length].
  split; intros Hlen.
  - rewrite bool_decide_eq_false_2 by lia. reflexivity.
  - rewrite bool_decide_eq_true_2 by lia. eauto.
Qed.

Lemma X1_record_then_check_witness :
  run checkRateLimit (exec recordSubmission demo_fresh_world)
    = Return (Allowed [1600000]).
Proof.
  destruct (X1_record_then_check demo_fresh_world eq_refl) as (_ & Hallow & _).
  apply Hallow. vm_compute. lia.
Defined.

(** ** The wait of a denial *)

Lemma denied_minutes (w : World) :
  (10 ≤ length (spec_pruned w))%nat →
  ∃ oldest,
    Js.Math_min (spec_pruned w) = Some oldest ∧
    oldest ∈ spec_pruned w ∧
    (∀ ts, ts ∈ spec_pruned w → oldest ≤ ts) ∧
    run checkRateLimit w =
      Return (Denied (denial_message
        (Some (Js.Math_ceil_div (oldest + 3600000 - clock w) 60000)))).
Proof.
  intros Hlen.
  destruct (Math_min_nonempty (spec_pruned w)) as [oldest Hmin]; [lia |].
  destruct (Math_min_least _ _ Hmin) as [Hin Hleast].
  exists oldest. repeat split; try assumption.
  unfold run. rewrite checkRateLimit_spec. unfold spec_rateCheck.
  rewrite bool_decide_eq_true_2 by exact Hlen. rewrite Hmin. reflexivity.
Qed.

(** X2. The wait of a denial is at least one minute, and at most sixty
    when none of the remaining timestamps lies in the future. *)
Theorem X2_wait_bounds (w : World) :
  (10 ≤ length (spec_pruned w))%nat →
  ∃ minutes,
    run checkRateLimit w = Return (Denied (denial_message (Some minutes))) ∧
    1 ≤ minutes ∧
    ((∀ ts, ts ∈ spec_pruned w → ts ≤ clock w) → minutes ≤ 60).
Proof.
  intros Hlen.
  destruct (denied_minutes w Hlen) as (oldest & _ & Hin & _ & Hrun).
  exists (Js.Math_ceil_div (oldest + 3600000 - clock w) 60000).
  split; [exact Hrun |].
  pose proof (Math_ceil_div_spec (oldest + 3600000 - clock w) 60000
                ltac:(lia)) as Hceil.
  pose proof Hin as Hfresh.
  apply elem_of_spec_prune in Hfresh as [_ Hfresh].
  split; [lia |]. intros Hpast. specialize (Hpast oldest Hin). lia.
Qed.

Lemma X2_wait_bounds_witness :
  ∃ minutes,
    run checkRateLimit demo_denied_world
      = Return (Denied (denial_message (Some minutes))) ∧
    1 ≤ minutes ∧
    ((∀ ts, ts ∈ spec_pruned demo_denied_world →
            ts ≤ clock demo_denied_world) → minutes ≤ 60).
Proof.
  apply (X2_wait_bounds demo_denied_world). vm_compute. lia.
Defined.

(** X3. The wait is enough and not too long.  When the ledger holds at
    most ten entries and the check denies, the check allows from the
    moment the announced minutes have passed, and still denies at every
    moment up to one minute short of them. *)
Theorem X3_wait_is_enough_and_tight (w : World) :
  (10 ≤ length (spec_pruned w))%nat →
  (length (spec_ledger w) ≤ 10)%nat →
  ∃ minutes,
    run checkRateLimit w = Return (Denied (denial_message (Some minutes))) ∧
    (∀ t, clock w + 60000 * minutes ≤ t →
       ∃ subs, run checkRateLimit (set_clock t w) = Return (Allowed subs)) ∧
    (∀ t, clock w ≤ t ≤ clock w + 60000 * (minutes - 1) →
       ∃ msg, run checkRateLimit (set_clock t w) = Return (Denied msg)).
Proof.
  intros Hlen Hcap.
  destruct (denied_minutes w Hlen) as (oldest & _ & Hin & Hleast & Hrun).
  exists (Js.Math_ceil_div (oldest + 3600000 - clock w) 60000).
  split; [exact Hrun |].
  pose proof (Math_ceil_div_spec (oldest + 3600000 - clock w) 60000
                ltac:(lia)) as Hceil.
  split.
  - intros t Ht. unfold run. rewrite checkRateLimit_spec. cbn [fst].
    unfold spec_rateCheck.
    change (spec_pruned (set_clock t w)) with (spec_prune t (spec_ledger w)).
    apply elem_of_spec_prune in Hin as [Hin _].
    pose proof (spec_prune_length_lt t oldest (spec_ledger w) Hin
                  ltac:(lia)) as Hlt.
    rewrite bool_decide_eq_false_2 by lia. eauto.
  - intros t Ht. unfold run. rewrite checkRateLimit_spec. cbn [fst].
    unfold spec_rateCheck.
    change (spec_pruned (set_clock t w)) with (spec_prune t (spec_ledger w)).
    assert (spec_prune t (spec_pruned w) = spec_pruned w) as Hkeep.
    { apply spec_prune_fresh. intros ts Hts. specialize (Hleast ts Hts). lia. }
    assert (length (spec_pruned w)
              ≤ length (spec_prune t (spec_ledger w)))%nat as Hge.
    { rewrite <- Hkeep. unfold spec_pruned, spec_prune.
      clear. induction (spec_ledger w) as [| x l IH]; [reflexivity |].
      cbn [List.filter]. case_bool_decide; cbn [List.filter length].
      - case_bool_decide; cbn [length]; lia.
      - pose proof (List.filter_length_le
                      (λ ts, bool_decide (t - ts < 3600000)) l).
        case_bool_decide; cbn [length]; lia. }
    rewrite bool_decide_eq_true_2 by lia. eauto.
Qed.

Lemma X3_wait_is_enough_and_tight_witness :
  ∃ minutes,
    run checkRateLimit demo_denied_world
      = Return (Denied (denial_message (Some minutes))) ∧
    (∀ t, clock demo_denied_world + 60000 * minutes ≤ t →
       ∃ subs, run checkRateLimit (set_clock t demo_denied_world)
                 = Return (Allowed subs)) ∧
    (∀ t, clock demo_denied_world ≤ t
            ≤ clock demo_denied_world + 60000 * (minutes - 1) →
       ∃ msg, run checkRateLimit (set_clock t demo_denied_world)
                = Return (Denied msg)).
Proof.
  apply (X3_wait_is_enough_and_tight demo_denied_world); vm_compute; lia.
Defined.

(** * Further properties of the handler *)

Lemma passes_guards_spec (w : World) :
  passes_guards w
    = negb (honeypot_filled (form w)) && is_allowed (spec_rateCheck w).
Proof. unfold passes_guards, run. rewrite checkRateLimit_spec. reflexivity. Qed.

(** A ledger of fewer than ten entries is allowed at any time. *)
Lemma short_ledger_allowed (w : World) :
  (length (spec_ledger w) < 10)%nat →
  spec_rateCheck w = Allowed (spec_pruned w).
Proof.
  intros Hlen. unfold spec_rateCheck.
  pose proof (spec_prune_length_le (clock w) (spec_ledger w)).
  rewrite bool_decide_eq_false_2; [reflexivity |].
  unfold spec_pruned. lia.
Qed.

(** X4. The handler never writes a ledger of more than ten entries, as
    long as the clock does not run backwards between the check and the
    record: after an accepted submission with a usable ledger, the
    stored ledger has at most ten entries, however many it had. *)
Theorem X4_stored_ledger_cap (page : Page) (net : Net) (w : World) :
  passes_guards w = true → is_2xx (reply net) = true →
  ledger_usable (localStorage w) = true →
  clock w ≤ arrival net →
  (length (spec_ledger (exec (submit page net) w)) ≤ 10)%nat.
Proof.
  intros Hg Hok Hu Hclock. unfold exec. rewrite submit_spec. cbn [snd].
  rewrite (spec_submit_allowed _ _ _ Hg), Hok.
  change (spec_ledger
            (set_submitBtn _ (set_formStatus _ (set_form _ ?x))))
    with (spec_ledger x).
  rewrite spec_ledger_recorded by exact Hu.
  change (spec_pruned (in_flight page net w))
    with (spec_prune (arrival net) (spec_ledger w)).
  rewrite length_app. cbn [length].
  pose proof (spec_prune_length_mono _ _ (spec_ledger w) Hclock) as Hmono.
  apply passes_guards_inv in Hg as [_ [subs Hsubs]].
  unfold spec_rateCheck in Hsubs. case_bool_decide as Hlen; [discriminate |].
  unfold spec_pruned in Hlen. lia.
Qed.

Lemma X4_stored_ledger_cap_witness :
  (length (spec_ledger
             (exec (submit (demo_page [] "" None) (demo_net 200 NotJson))
                demo_fresh_world)) ≤ 10)%nat.
Proof.
  apply (X4_stored_ledger_cap (demo_page [] "" None) (demo_net 200 NotJson)
           demo_fresh_world); [reflexivity .. |].
  vm_compute. discriminate.
Defined.

(** ** Visits *)

(** One accepted attempt on a usable ledger of fewer than ten entries,
    all of them fresh when the reply arrives. *)
Lemma accepted_attempt (page : Page) (a : Attempt) (w : World) :
  honeypot_filled (filled a) = false →
  is_2xx (reply (met a)) = true →
  ledger_usable (localStorage w) = true →
  (length (spec_ledger w) < 10)%nat →
  (∀ ts, ts ∈ spec_ledger w → arrival (met a) - ts < 3600000) →
  let w' := exec (submit page (met a)) (begin a w) in
  spec_ledger w' = (spec_ledger w ++ [arrival (met a)])%list ∧
  ledger_usable (localStorage w') = true ∧
  requests (log w') = (requests (log w) ++ [the_request page (begin a w)])%list.
Proof.
  intros Hh Hok Hu Hlen Hfresh w'. subst w'.
  assert (passes_guards (begin a w) = true) as Hg.
  { rewrite passes_guards_spec. cbn [form begin set_form].
    rewrite Hh, (short_ledger_allowed (begin a w) Hlen). reflexivity. }
  unfold exec. rewrite submit_spec. cbn [snd].
  rewrite (spec_submit_allowed _ _ _ Hg), Hok.
  split; [| split].
  - change (spec_ledger
              (set_submitBtn _ (set_formStatus _ (set_form _ ?x))))
      with (spec_ledger x).
    rewrite spec_ledger_recorded by exact Hu.
    change (spec_pruned (in_flight page (met a) (begin a w)))
      with (spec_prune (arrival (met a)) (spec_ledger w)).
    rewrite (spec_prune_fresh _ _ Hfresh). reflexivity.
  - change (localStorage
              (set_submitBtn _ (set_formStatus _ (set_form _ ?x))))
      with (localStorage x).
    apply ledger_usable_recorded. exact Hu.
  - change (log (set_submitBtn _ (set_formStatus _ (set_form _ ?x))))
      with (log x).
    pose proof (visible_spec_recorded (in_flight page (met a) (begin a w)))
      as Hvis.
    unfold visible in Hvis. injection Hvis as _ _ _ Hlog. rewrite Hlog.
    cbn [log in_flight set_clock emit sending set_formStatus set_submitBtn
         begin set_form].
    unfold requests. rewrite !omap_app. cbn. rewrite app_nil_r. reflexivity.
Qed.

Lemma session_accepted (page : Page) (T : Z) (attempts : list Attempt) :
  ∀ w,
    ledger_usable (localStorage w) = true →
    (∀ ts, ts ∈ spec_ledger w → T - ts < 3600000) →
    (length (spec_ledger w) + length attempts ≤ 10)%nat →
    Forall (succeeds_by T) attempts →
    spec_ledger (session page attempts w)
      = (spec_ledger w ++ ((λ a, arrival (met a)) <$> attempts))%list ∧
    ledger_usable (localStorage (session page attempts w)) = true ∧
    length (requests (log (session page attempts w)))
      = (length (requests (log w)) + length attempts)%nat.
Proof.
  induction attempts as [| a rest IH]; intros w Hu Hfresh Hlen Hall.
  - cbn. rewrite app_nil_r. split; [reflexivity |]. split; [exact Hu | lia].
  - apply Forall_cons in Hall as [(Hh & Hok & Hby & Hlate) Hall].
    cbn [length] in Hlen. cbn [session].
    destruct (accepted_attempt page a w Hh Hok Hu ltac:(lia))
      as (Hledger & Hu' & Hreq).
    { intros ts Hts. specialize (Hfresh ts Hts). lia. }
    destruct (IH (exec (submit page (met a)) (begin a w)) Hu') as (H1 & H2 & H3).
    + rewrite Hledger. intros ts [Hts | Hts]%elem_of_app.
      * apply Hfresh, Hts.
      * apply list_elem_of_singleton in Hts as ->. exact Hlate.
    + rewrite Hledger, length_app. cbn [length]. lia.
    + exact Hall.
    + rewrite H1, H3, Hledger, Hreq, length_app, <- app_assoc.
      cbn [length fmap list_fmap app]. split; [reflexivity |].
      split; [exact H2 | lia].
Qed.

(** X5. A visit of up to ten accepted submissions whose replies arrive
    within one hour, on a ledger that was empty and usable: every
    submission sends its request, and the stored ledger is the sequence
    of the arrival times, in order. *)
Theorem X5_visit_fills_ledger (page : Page) (T : Z) (attempts : list Attempt)
    (w : World) :
  ledger_usable (localStorage w) = true →
  spec_ledger w = [] →
  (length attempts ≤ 10)%nat →
  Forall (succeeds_by T) attempts →
  spec_ledger (session page attempts w) = (λ a, arrival (met a)) <$> attempts ∧
  length (requests (log (session page attempts w)))
    = (length (requests (log w)) + length attempts)%nat.
Proof.
  intros Hu Hempty Hlen Hall.
  destruct (session_accepted page T attempts w Hu) as (H1 & _ & H3).
  - rewrite Hempty. intros ts Hts. inversion Hts.
  - rewrite Hempty. cbn. lia.
  - exact Hall.
  - rewrite H1, Hempty. split; [reflexivity | exact H3].
Qed.

Lemma demo_attempts_succeed : Forall (succeeds_by 1600000) demo_attempts.
Proof.
  unfold demo_attempts. cbn [seq fmap list_fmap].
  repeat (apply Forall_cons; split;
          [unfold succeeds_by; cbn; repeat split; (reflexivity || lia) |]).
  apply Forall_nil_2.
Qed.

Lemma X5_visit_fills_ledger_witness :
  spec_ledger (session (demo_page [] "" None) demo_attempts demo_fresh_world)
    = (λ a, arrival (met a)) <$> demo_attempts ∧
  length (requests (log (session (demo_page [] "" None) demo_attempts
                           demo_fresh_world)))
    = (length (requests (log demo_fresh_world)) + length demo_attempts)%nat.
Proof.
  apply (X5_visit_fills_ledger (demo_page [] "" None) 1600000 demo_attempts
           demo_fresh_world).
  - reflexivity.
  - reflexivity.
  - vm_compute. lia.
  - exact demo_attempts_succeed.
Defined.

(** X6. The eleventh submission of such a visit, made while the ten
    before it are less than one hour old, is refused: it sends no
    request, leaves the storage alone and shows a denial as an error. *)
Theorem X6_eleventh_is_denied (page : Page) (T : Z) (attempts : list Attempt)
    (a : Attempt) (w : World) :
  ledger_usable (localStorage w) = true →
  spec_ledger w = [] →
  length attempts = 10%nat →
  Forall (succeeds_by T) attempts →
  honeypot_filled (filled a) = false →
  started a ≤ T →
  let before := session page attempts w in
  let after := exec (submit page (met a)) (begin a before) in
  requests (log after) = requests (log before) ∧
  localStorage after = localStorage before ∧
  ∃ msg, formStatus after = error_status msg.
Proof.
  intros Hu Hempty Hlen Hall Hh Hstart before after. subst before after.
  destruct (session_accepted page T attempts w Hu) as (H1 & _ & _).
  { rewrite Hempty. intros ts Hts. inversion Hts. }
  { rewrite Hempty. cbn. lia. }
  { exact Hall. }
  rewrite Hempty in H1. cbn [app] in H1.
  set (before := session page attempts w) in *.
  assert (spec_pruned (begin a before) = spec_ledger before) as Hpruned.
  { change (spec_pruned (begin a before))
      with (spec_prune (started a) (spec_ledger before)).
    apply spec_prune_fresh. intros ts Hts. rewrite H1 in Hts.
    apply list_elem_of_fmap in Hts as (b & -> & Hb).
    rewrite Forall_forall in Hall.
    destruct (Hall b Hb) as (_ & _ & _ & Hlate). lia. }
  unfold exec. rewrite submit_spec. cbn [snd]. unfold spec_submit.
  change (form (begin a before)) with (filled a). rewrite Hh.
  unfold spec_rateCheck. rewrite Hpruned, H1, length_fmap, Hlen.
  rewrite bool_decide_eq_true_2 by lia.
  split; [apply requests_emit_PreventDefault |].
  split; [reflexivity | eauto].
Qed.

Lemma X6_eleventh_is_denied_witness :
  requests (log (exec (submit (demo_page [] "" None) (met demo_eleventh))
                   (begin demo_eleventh
                      (session (demo_page [] "" None) demo_attempts
                         demo_fresh_world))))
  = requests (log (session (demo_page [] "" None) demo_attempts
                     demo_fresh_world)).
Proof.
  apply (X6_eleventh_is_denied (demo_page [] "" None) 1600000 demo_attempts
           demo_eleventh demo_fresh_world).
  - reflexivity.
  - reflexivity.
  - reflexivity.
  - exact demo_attempts_succeed.
  - reflexivity.
  - vm_compute. discriminate.
Defined.

(** The record leaves the log alone. *)
Lemma log_settled (b : bool) (f : Form) (w : World) :
  log (if b then set_form f (spec_recorded w) else w) = log w.
Proof.
  destruct b; [| reflexivity].
  pose proof (visible_spec_recorded w) as Hvis.
  unfold visible in Hvis. injection Hvis as _ _ _ Hlog. exact Hlog.
Qed.

(** ** A ledger that cannot be used *)








(** ** What one submission does *)

(** X9. The handler never ends in an exception: whatever the storage,
    the form, the reply and its body, it returns normally. *)
Theorem X9_submit_never_throws (page : Page) (net : Net) (w : World) :
  run (submit page net) w = Return tt.
Proof. unfold run. rewrite submit_spec. reflexivity. Qed.

(** X10. The traffic of one submission: the browser's own submission is
    cancelled first, in every case, and then exactly one request goes
    out when the guards pass and none when they do not.  The request is
    made up before the network is met. *)
Theorem X10_submit_traffic (page : Page) (net : Net) (w : World) :
  log (exec (submit page net) w)
    = (log w ++ PreventDefault ::
         (if passes_guards w then [Fetch (the_request page w)] else []))%list.
Proof.
  unfold exec. rewrite submit_spec, passes_guards_spec. cbn [snd].
  unfold spec_submit.
  destruct (honeypot_filled (form w)); [reflexivity |].
  destruct (spec_rateCheck w) as [subs | msg]; [| reflexivity].
  cbn [negb andb is_allowed log set_submitBtn set_formStatus].
  rewrite log_settled.
  cbn [log in_flight set_clock emit sending set_formStatus set_submitBtn].
  rewrite <- app_assoc. reflexivity.
Qed.

(** X11. A submission that passed the guards shows the success status
    exactly when the reply is in the range 200-299; in every case the
    status line is displayed, with the success class or the error
    class. *)
Theorem X11_success_iff_2xx (page : Page) (net : Net) (w : World) :
  passes_guards w = true →
  (formStatus (exec (submit page net) w) = success_status
     ↔ is_2xx (reply net) = true) ∧
  display (formStatus (exec (submit page net) w)) = "block" ∧
  (className (formStatus (exec (submit page net) w)) = "form-status success"
   ∨ className (formStatus (exec (submit page net) w)) = "form-status error").
Proof.
  intros Hg. unfold exec. rewrite submit_spec. cbn [snd].
  rewrite (spec_submit_allowed _ _ _ Hg).
  cbn [formStatus set_submitBtn set_formStatus].
  destruct net as [[| st b] t]; cbn [reply is_2xx spec_final_status].
  - split; [split; discriminate |]. split; [reflexivity | right; reflexivity].
  - case_bool_decide as Hst.
    + split; [split; reflexivity |]. split; [reflexivity | left; reflexivity].
    + split; [| destruct b as [| [| e m]];
                 (split; [reflexivity | right; reflexivity])].
      split; [| discriminate].
      destruct b as [| [| e m]]; discriminate.
Qed.

Lemma X11_success_iff_2xx_witness :
  (formStatus (exec (submit (demo_page [] "" None) (demo_net 201 NotJson))
                 demo_fresh_world)
     = success_status
   ↔ is_2xx (reply (demo_net 201 NotJson)) = true).
Proof.
  apply (X11_success_iff_2xx (demo_page [] "" None) (demo_net 201 NotJson)
           demo_fresh_world).
  reflexivity.
Defined.

(** X12. A request that never completes: the handler shows the
    connectivity message as an error, keeps the values of the form and
    records nothing. *)
Theorem X12_network_failure (page : Page) (net : Net) (w : World) :
  passes_guards w = true → reply net = Rejected →
  formStatus (exec (submit page net) w) = error_status connectivity_text ∧
  form (exec (submit page net) w) = form w ∧
  localStorage (exec (submit page net) w) = localStorage w.
Proof.
  intros Hg Hreply. unfold exec. rewrite submit_spec. cbn [snd].
  rewrite (spec_submit_allowed _ _ _ Hg), Hreply. repeat split.
Qed.

Lemma X12_network_failure_witness :
  formStatus (exec (submit (demo_page [] "" None)
                      {| reply := Rejected; arrival := 1630000 |})
                demo_fresh_world)
    = error_status connectivity_text ∧
  form (exec (submit (demo_page [] "" None)
                {| reply := Rejected; arrival := 1630000 |})
          demo_fresh_world)
    = form demo_fresh_world ∧
  localStorage (exec (submit (demo_page [] "" None)
                        {| reply := Rejected; arrival := 1630000 |})
                  demo_fresh_world)
    = localStorage demo_fresh_world.
Proof.
  apply (X12_network_failure (demo_page [] "" None)
           {| reply := Rejected; arrival := 1630000 |} demo_fresh_world);
    reflexivity.
Defined.

(** X13. The handler touches what the visitor typed only after an
    accepted submission: when the guards stop it, or the reply is not
    in the range 200-299, or the request fails, the form is as it was. *)
Theorem X13_input_kept_unless_accepted (page : Page) (net : Net) (w : World) :
  passes_guards w && is_2xx (reply net) = false →
  form (exec (submit page net) w) = form w.
Proof.
  rewrite passes_guards_spec. intros Hno.
  unfold exec. rewrite submit_spec. cbn [snd]. unfold spec_submit.
  destruct (honeypot_filled (form w)); [reflexivity |].
  destruct (spec_rateCheck w) as [subs | msg]; [| reflexivity].
  cbn in Hno. rewrite Hno. reflexivity.
Qed.

Lemma X13_input_kept_unless_accepted_witness :
  form (exec (submit (demo_page [] "" None) (demo_net 200 NotJson))
          demo_denied_world)
    = demo_form.
Proof.
  apply (X13_input_kept_unless_accepted (demo_page [] "" None)
           (demo_net 200 NotJson) demo_denied_world).
  vm_compute. reflexivity.
Defined.

(** * Further properties of the attribution *)

Lemma params_get_skip (l1 l2 : list (string * string)) (k v name : string) :
  k ≠ name →
  params_get (l1 ++ (k, v) :: l2) name = params_get (l1 ++ l2) name.
Proof.
  intros Hk. induction l1 as [| [k1 v1] l1 IH]; cbn [app params_get].
  - apply String.eqb_neq in Hk. rewrite Hk. reflexivity.
  - rewrite IH. reflexivity.
Qed.

Lemma params_get_swap (l1 l2 : list (string * string))
    (k1 v1 k2 v2 name : string) :
  k1 ≠ k2 →
  params_get (l1 ++ (k1, v1) :: (k2, v2) :: l2) name
    = params_get (l1 ++ (k2, v2) :: (k1, v1) :: l2) name.
Proof.
  intros Hk. induction l1 as [| [k v] l1 IH]; cbn [app params_get].
  - destruct (String.eqb_spec k1 name) as [-> | H1];
      destruct (String.eqb_spec k2 name) as [-> | H2];
      congruence.
  - rewrite IH. reflexivity.
Qed.

Lemma getSource_params (page : Page) (params params' : list (string * string)) :
  (∀ name, params_get params name = params_get params' name) →
  getSource (with_search params page) = getSource (with_search params' page).
Proof.
  intros Hsame. unfold getSource. cbn [search with_search].
  rewrite !Hsame. reflexivity.
Qed.

(** X14. A query parameter with any other name than [utm_source], [ref]
    and [source] has no part in the answer, wherever it stands in the
    query. *)
Theorem X14_other_parameters_ignored (page : Page)
    (l1 l2 : list (string * string)) (k v : string) :
  k ≠ "utm_source" → k ≠ "ref" → k ≠ "source" →
  getSource (with_search (l1 ++ (k, v) :: l2) page)
    = getSource (with_search (l1 ++ l2) page).
Proof.
  intros H1 H2 H3. unfold getSource. cbn [search with_search].
  rewrite !(params_get_skip l1 l2 k v) by assumption. reflexivity.
Qed.

Lemma X14_other_parameters_ignored_witness :
  getSource (with_search ([("ref", "aff")] ++ ("page", "2") :: [])
               (demo_page [] "" None))
    = getSource (with_search ([("ref", "aff")] ++ [])
                   (demo_page [] "" None)).
Proof.
  apply (X14_other_parameters_ignored (demo_page [] "" None) [("ref", "aff")]
           [] "page" "2"); discriminate.
Defined.

(** X15. The precedence among the parameters does not depend on their
    order in the query: two neighbours with different names can change
    places. *)
Theorem X15_parameter_order_irrelevant (page : Page)
    (l1 l2 : list (string * string)) (k1 v1 k2 v2 : string) :
  k1 ≠ k2 →
  getSource (with_search (l1 ++ (k1, v1) :: (k2, v2) :: l2) page)
    = getSource (with_search (l1 ++ (k2, v2) :: (k1, v1) :: l2) page).
Proof.
  intros Hk. apply getSource_params. intros name.
  apply params_get_swap. exact Hk.
Qed.

Lemma X15_parameter_order_irrelevant_witness :
  getSource (with_search ([] ++ ("ref", "aff") :: ("utm_source", "news") :: [])
               (demo_page [] "" None))
    = getSource (with_search
                   ([] ++ ("utm_source", "news") :: ("ref", "aff") :: [])
                   (demo_page [] "" None)).
Proof.
  apply (X15_parameter_order_irrelevant (demo_page [] "" None) [] []
           "ref" "aff" "utm_source" "news").
  discriminate.
Defined.

Lemma truthy_opt_default (o : option string) :
  Js.truthy_opt o = true → default "" o ≠ "".
Proof. destruct o as [[| c s] |]; cbn; intros H; congruence. Qed.

(** X16. The answer is never the empty text, unless the referrer parses
    to a URL whose host name is empty. *)
Theorem X16_source_not_empty (page : Page) :
  referrer_host page ≠ Some "" → getSource page ≠ "".
Proof.
  intros Hhost. unfold getSource.
  destruct (Js.truthy_opt (params_get (search page) "utm_source")) eqn:H1;
    [by apply truthy_opt_default |].
  destruct (Js.truthy_opt (params_get (search page) "ref")) eqn:H2;
    [by apply truthy_opt_default |].
  destruct (Js.truthy_opt (params_get (search page) "source")) eqn:H3;
    [by apply truthy_opt_default |].
  destruct (Js.truthy (referrer page)); [| discriminate].
  destruct (referrer_host page) as [host |]; [| discriminate].
  destruct (String.eqb host (hostname page)); [discriminate |].
  repeat match goal with
         | |- context [if ?b then _ else _] => destruct b; [discriminate |]
         end.
  congruence.
Qed.

Lemma X16_source_not_empty_witness :
  getSource (demo_page [("utm_source", "")] "https://example.org/"
               (Some "example.org"))
    ≠ "".
Proof.
  apply (X16_source_not_empty
           (demo_page [("utm_source", "")] "https://example.org/"
              (Some "example.org"))).
  discriminate.
Defined.

(** * Properties of the mobile navigation *)

Lemma clicks_app (ts1 ts2 : list Target) (n : Nav) :
  clicks (ts1 ++ ts2) n = clicks ts2 (clicks ts1 n).
Proof. apply fold_left_app. Qed.

Lemma click_in_sync (t : Target) (n : Nav) :
  menu_active n = toggle_active n →
  click t n =
    {| menu_active := spec_menu_open [t] (menu_active n);
       toggle_active := spec_menu_open [t] (menu_active n) |}.
Proof.
  destruct n as [m tg]. cbn [menu_active toggle_active]. intros <-.
  destruct t, m; reflexivity.
Qed.

(** X17. When the menu and the toggle start out both active or both
    inactive they stay so through any sequence of clicks, and behave as
    one bit: a click on the toggle flips it (the listener of the
    document does not undo that), a click on a link of the menu or
    outside both closes, a click inside the menu off its links changes
    nothing. *)
Theorem X17_menu_and_toggle_agree (ts : list Target) (n : Nav) :
  menu_active n = toggle_active n →
  clicks ts n =
    {| menu_active := spec_menu_open ts (menu_active n);
       toggle_active := spec_menu_open ts (menu_active n) |}.
Proof.
  revert n. induction ts as [| t ts IH]; intros n Hsync.
  - destruct n as [m tg]. cbn in *. congruence.
  - change (clicks (t :: ts) n) with (clicks ts (click t n)).
    rewrite (click_in_sync t n Hsync).
    rewrite IH by reflexivity. reflexivity.
Qed.

Lemma X17_menu_and_toggle_agree_witness :
  clicks [OnToggle; InMenu; OnToggle; OnToggle; Elsewhere; OnToggle]
    demo_nav_closed
  = {| menu_active := true; toggle_active := true |}.
Proof.
  apply (X17_menu_and_toggle_agree
           [OnToggle; InMenu; OnToggle; OnToggle; Elsewhere; OnToggle]
           demo_nav_closed).
  reflexivity.
Defined.

(** X18. Two clicks on the toggle in a row cancel, and a click inside
    the menu off its links counts for nothing, wherever they stand in a
    sequence of clicks and whatever the state at its start. *)
Theorem X18_clicks_that_cancel (ts1 ts2 : list Target) (n : Nav) :
  clicks (ts1 ++ OnToggle :: OnToggle :: ts2) n = clicks (ts1 ++ ts2) n ∧
  clicks (ts1 ++ InMenu :: ts2) n = clicks (ts1 ++ ts2) n.
Proof.
  rewrite !clicks_app. split.
  - change (clicks (OnToggle :: OnToggle :: ts2) ?m)
      with (clicks ts2 (click OnToggle (click OnToggle m))).
    f_equal. destruct (clicks ts1 n) as [[] []]; reflexivity.
  - reflexivity.
Qed.
